(** * Historical index components from wiki revisions: a shallow embedding

    The script [components.py] asks the MediaWiki revisions API for the
    revision of a page nearest to a date, scrapes the tables of that
    revision with [pandas.read_html], picks the components table by its
    header, and dumps one CSV file per sampled date.

    Python values are embedded as follows.
    - [str] is [string]; Python compares strings by code point, which for
      UTF-8 encoded text is the byte-wise order of [String.compare].
    - JSON values returned by [r.json()] are the inductive [Json];
      timestamps, ISO-8601 strings on the wire whose order is the
      chronological one, are kept as their epoch seconds.
    - A [pandas.DataFrame] with a flat header is a record of column labels,
      an index name and rows, each row carrying its index label.
    - Exceptions are the inductive [exn]; a computation returns a [result].
    - Output, network requests and the file system are threaded through an
      explicit [State]. *)

From Stdlib Require Import ZArith List String Ascii Bool Lia.
From Stdlib Require Import Sorting.Permutation Sorting.Sorted.
From Stdlib Require Import Structures.OrderedTypeEx.
From stdpp Require Import base gmap strings list.

Local Open Scope string_scope.
Local Open Scope Z_scope.

(** ** Exceptions and results *)

Inductive exn : Type :=
| KeyError (key : string)
| IndexError
| TypeError
| ValueError
| UnboundLocalError (name : string)
| FileNotFoundError (path : string)
| IsADirectoryError (path : string)
| NotADirectoryError (path : string)
| PermissionError (path : string)
| RequestException
| JSONDecodeError
| HTTPError.

Inductive result (A : Type) : Type :=
| Ok (a : A)
| Raise (e : exn).

Arguments Ok {A} a.
Arguments Raise {A} e.

(** ** JSON values and subscripting *)

#[local] Set Warnings "-register-all".

Inductive Json : Type :=
| JNull
| JBool (b : bool)
| JNum (n : Z)
| JStr (s : string)
| JArr (items : list Json)
| JObj (fields : list (string * Json)).

Fixpoint assoc {V} (k : string) (d : list (string * V)) : option V :=
  match d with
  | [] => None
  | (k', v) :: d' => if String.eqb k' k then Some v else assoc k d'
  end.

(** [j[key]] for a string key: only a JSON object answers. *)
Definition get_item (j : Json) (key : string) : result Json :=
  match j with
  | JObj fields =>
      match assoc key fields with
      | Some v => Ok v
      | None => Raise (KeyError key)
      end
  | _ => Raise TypeError
  end.

(** [j[0]]: the first element of an array, the first character of a
    string; an object has no key [0]. *)
Definition get_first (j : Json) : result Json :=
  match j with
  | JArr (x :: _) => Ok x
  | JArr [] => Raise IndexError
  | JStr (String c _) => Ok (JStr (String c EmptyString))
  | JStr EmptyString => Raise IndexError
  | JObj _ => Raise (KeyError "0")
  | _ => Raise TypeError
  end.

(** ** Data frames *)

(** A scraped cell, and an index label: text, a number, or a missing
    value (an empty HTML cell is read as NaN). *)
Inductive Value : Type :=
| VStr (s : string)
| VNum (n : Z)
| VNaN.

Definition is_str (v : Value) : bool :=
  match v with VStr _ => true | _ => false end.

Definition is_num (v : Value) : bool :=
  match v with VNum _ => true | _ => false end.

Definition isna (v : Value) : bool :=
  match v with VNaN => true | _ => false end.

Record DataFrame : Type := mkDataFrame {
  df_columns : list string;
  df_index_name : option string;
  df_rows : list (Value * list Value)
}.

(** [df.index] as a list of labels, and [list(df.index)]. *)
Definition df_index (df : DataFrame) : list Value := map fst (df_rows df).

(** [name in df.columns] *)
Definition has_column (name : string) (df : DataFrame) : bool :=
  existsb (String.eqb name) (df_columns df).

Fixpoint column_position (name : string) (cols : list string) : option nat :=
  match cols with
  | [] => None
  | c :: cols' =>
      if String.eqb name c then Some O
      else option_map S (column_position name cols')
  end.

Fixpoint drop_nth {A} (i : nat) (l : list A) : list A :=
  match l, i with
  | [], _ => []
  | _ :: l', O => l'
  | x :: l', S i' => x :: drop_nth i' l'
  end.

(** The row re-keyed on the cell at position [i]; the old label is lost. *)
Definition rekey (i : nat) (row : Value * list Value) : Value * list Value :=
  (nth i (snd row) VNaN, drop_nth i (snd row)).

(** [df.set_index(name)]: the column becomes the index and leaves the
    columns; the index takes the column's name. *)
Definition set_index (name : string) (df : DataFrame) : result DataFrame :=
  match column_position name (df_columns df) with
  | None => Raise (KeyError name)
  | Some i =>
      Ok {| df_columns := drop_nth i (df_columns df);
            df_index_name := Some name;
            df_rows := map (rekey i) (df_rows df) |}
  end.

(** [df.index.name = name] *)
Definition set_index_name (name : string) (df : DataFrame) : DataFrame :=
  {| df_columns := df_columns df;
     df_index_name := Some name;
     df_rows := df_rows df |}.

(** *** Sorting by index label *)

(** Python's [<=] on labels of one kind; labels of different kinds do
    not compare (see [comparable]). *)
Definition label_leb (a b : Value) : bool :=
  match a, b with
  | VStr s, VStr t => String.leb s t
  | VNum m, VNum n => Z.leb m n
  | _, _ => false
  end.

Section InsertionSort.
Context {A : Type} (leb : A -> A -> bool).

Fixpoint insert_sorted (x : A) (l : list A) : list A :=
  match l with
  | [] => [x]
  | y :: l' => if leb x y then x :: l else y :: insert_sorted x l'
  end.

Fixpoint insertion_sort (l : list A) : list A :=
  match l with
  | [] => []
  | x :: l' => insert_sorted x (insertion_sort l')
  end.

Definition le_of (a b : A) : Prop := leb a b = true.
End InsertionSort.

Definition row_leb (r1 r2 : Value * list Value) : bool :=
  label_leb (fst r1) (fst r2).

(** Labels that a sort can compare pairwise: all text or all numbers. *)
Definition comparable (labels : list Value) : bool :=
  forallb is_str labels || forallb is_num labels.

(** [df.sort_index()]: ascending, missing labels last in their original
    order. Comparing text with a number raises [TypeError]. Rows with
    equal labels keep their relative order here. *)
Definition sort_index (df : DataFrame) : result DataFrame :=
  let present := List.filter (fun r => negb (isna (fst r))) (df_rows df) in
  let missing := List.filter (fun r => isna (fst r)) (df_rows df) in
  if comparable (map fst present) then
    Ok {| df_columns := df_columns df;
          df_index_name := df_index_name df;
          df_rows := insertion_sort row_leb present ++ missing |}
  else Raise TypeError.

(** ** The table scan of [get_index_components_at] *)

(** The [for df in table] loop. [df] is the loop variable as bound so far:
    [None] before the first iteration. A table with a recognised header
    is re-keyed and the loop breaks; otherwise the variable moves on, and
    after the last table it still holds that table. *)
Fixpoint scan_tables (table : list DataFrame) (df : option DataFrame)
  : result (option DataFrame) :=
  match table with
  | [] => Ok df
  | t :: rest =>
      if has_column "Symbol" t then
        match set_index "Symbol" t with
        | Ok t' => Ok (Some t')
        | Raise e => Raise e
        end
      else if has_column "Ticker symbol" t then
        match set_index "Ticker symbol" t with
        | Ok t' => Ok (Some t')
        | Raise e => Raise e
        end
      else scan_tables rest (Some t)
  end.

(** Lines 98-106: scan, name the index, sort. *)
Definition components_of_tables (table : list DataFrame) : result DataFrame :=
  match scan_tables table None with
  | Raise e => Raise e
  | Ok None => Raise (UnboundLocalError "df")
  | Ok (Some df) => sort_index (set_index_name "Symbol" df)
  end.

(** ** Effects: output, network requests, files *)

(** The page-view request [<base>?title=<page>&oldid=<revid>], kept in
    its parts; [urllib.parse.quote] of the title is kept as the title
    itself. *)
Record Url : Type := mkUrl {
  url_base : string;
  url_title : string;
  url_oldid : Json
}.

Inductive Printed : Type :=
| PText (s : string)
| PParams (p : gmap string Json)
| PJson (j : Json).

Inductive Event : Type :=
| Stdout (parts : list Printed)
| ApiGet (url : string) (params : gmap string Json)
| ReadHtml (u : Url).

(** What the script can observe and change: the events so far, the
    directories, the regular files with their content, and the paths at
    which the operating system refuses to open a file, with the error it
    gives. *)
Record State : Type := mkState {
  trace : list Event;
  fs_dirs : gset string;
  fs_files : gmap string string;
  fs_denied : gmap string exn
}.

(** What lies outside the script: the HTTP session's answer to a query
    ([S.get(...).json()]), the tables [pandas.read_html] parses from a
    page view, [pandas.date_range], and the clock. *)
Record Env : Type := mkEnv {
  session : gmap string Json -> result Json;
  read_html : Url -> result (list DataFrame);
  date_range : option Z -> Z -> string -> result (list Z);
  datetime_today : Z;
  date_today : Z
}.

(** State and exceptions: an exception stops the computation and keeps
    the state reached so far. *)
Definition M (A : Type) : Type := State -> State * result A.

Definition ret {A} (a : A) : M A := fun st => (st, Ok a).

Definition bind {A B} (m : M A) (f : A -> M B) : M B :=
  fun st =>
    match m st with
    | (st', Ok a) => f a st'
    | (st', Raise e) => (st', Raise e)
    end.

Definition lift {A} (r : result A) : M A := fun st => (st, r).

Definition emit (e : Event) : M unit :=
  fun st =>
    ({| trace := trace st ++ [e];
        fs_dirs := fs_dirs st;
        fs_files := fs_files st;
        fs_denied := fs_denied st |}, Ok tt).

Notation "x <- m ;; k" := (bind m (fun x => k))
  (at level 100, m at next level, right associativity).
Notation "m ;;; k" := (bind m (fun _ => k))
  (at level 100, right associativity).

Definition print (parts : list Printed) : M unit := emit (Stdout parts).

(** [for x in xs: acc = body(x, acc)] *)
Fixpoint for_each {A B} (body : A -> B -> M B) (xs : list A) (acc : B) : M B :=
  match xs with
  | [] => ret acc
  | x :: xs' => acc' <- body x acc ;; for_each body xs' acc'
  end.

(** ** Configuration *)

Definition wikipedia_pages : list (string * string) :=
  [ ("SPX", "List of S&P 500 companies");
    ("NASDAQ", "Nasdaq-100#Components");
    ("Nasdaq100", "Nasdaq-100");
    ("S400", "List of S&P 400 companies");
    ("DowJones", "Dow_Jones_Industrial_Average");
    ("Russell_1000", "Russell_1000_Index");
    ("FTSE_350", "FTSE_350_Index");
    ("Forbes2000", "Forbes_Global_2000") ].

Definition wikipedia_api_url : string := "https://en.wikipedia.org/w/api.php".

Definition wikipedia_page_url_base : string :=
  "https://en.wikipedia.org/w/index.php".

(** [f"{wikipedia_page_url_base}?title={quote(page)}&oldid={revid}"] *)
Definition page_url (page : string) (revid : Json) : Url :=
  {| url_base := wikipedia_page_url_base;
     url_title := page;
     url_oldid := revid |}.

(** Modelled from the spec: [utils.isoformat] is imported by the script but
    is not part of the sources. The spec has [rvstart] and [rvend] sent as
    ISO-8601 timestamps; the instant is kept as its epoch seconds. *)
Definition isoformat (t : Z) : Json := JNum t.

(** ** The revision lookup *)

(** Lines 50-68: the query parameters, the optional bounds, then the
    caller's extra parameters, which override. *)
Definition query_params (page_title : string) (rvstart rvend : option Z)
    (rvdir : string) (rvlimit : Z) (kwargs : list (string * Json))
  : gmap string Json :=
  let query_params : gmap string Json :=
    <["rvdir" := JStr rvdir]>
    (<["rvlimit" := JNum rvlimit]>
    (<["format" := JStr "json"]>
    (<["formatversion" := JStr "2"]>
    (<["rvslots" := JStr "main"]>
    (<["rvprop" := JStr "ids|timestamp|user|comment"]>
    (<["titles" := JStr page_title]>
    (<["prop" := JStr "revisions"]>
    (<["action" := JStr "query"]> ∅)))))))) in
  let query_params :=
    match rvstart with
    | Some t => <["rvstart" := isoformat t]> query_params
    | None => query_params
    end in
  let query_params :=
    match rvend with
    | Some t => <["rvend" := isoformat t]> query_params
    | None => query_params
    end in
  fold_left (fun qp kv => <[fst kv := snd kv]> qp) kwargs query_params.

Definition get_revisions_metadata
    (S : gmap string Json -> result Json) (page_title : string)
    (rvstart rvend : option Z) (rvdir : string) (rvlimit : Z)
    (kwargs : list (string * Json)) : M Json :=
  let query_params :=
    query_params page_title rvstart rvend rvdir rvlimit kwargs in
  print [PText "query_params"] ;;;
  print [PParams query_params] ;;;
  emit (ApiGet wikipedia_api_url query_params) ;;;
  data <- lift (S query_params) ;;
  print [PText "response:"; PJson data] ;;;
  query <- lift (get_item data "query") ;;
  pages <- lift (get_item query "pages") ;;
  page0 <- lift (get_first pages) ;;
  revisions <- lift (get_item page0 "revisions") ;;
  print [PText "revision"] ;;;
  print [PJson revisions] ;;;
  ret revisions.

(** ** Components at a date *)

Definition get_index_components_at (env : Env) (index : string) (when : option Z)
  : M DataFrame :=
  let when := match when with Some w => w | None => datetime_today env end in
  page <- lift (match assoc index wikipedia_pages with
                | Some p => Ok p
                | None => Raise (KeyError index)
                end) ;;
  revisions <- get_revisions_metadata (session env) page (Some when) None
                 "older" 1 [] ;;
  revision <- lift (get_first revisions) ;;
  ts <- lift (get_item revision "timestamp") ;;
  print [PText "Got results from "; PJson ts] ;;;
  revid <- lift (get_item revision "revid") ;;
  let url := page_url page revid in
  emit (ReadHtml url) ;;;
  table <- lift (read_html env url) ;;
  lift (components_of_tables table).

(** ** History over a date range *)

(** [str(date)] of a time-zone-naive [pandas.Timestamp] with whole
    seconds, given as seconds since the epoch: [YYYY-MM-DD HH:MM:SS]. *)
Definition civil_from_days (days : Z) : Z * Z * Z :=
  let z := days + 719468 in
  let era := z / 146097 in
  let doe := z - era * 146097 in
  let yoe := (doe - doe / 1460 + doe / 36524 - doe / 146096) / 365 in
  let doy := doe - (365 * yoe + yoe / 4 - yoe / 100) in
  let mp := (5 * doy + 2) / 153 in
  let d := doy - (153 * mp + 2) / 5 + 1 in
  let m := if mp <? 10 then mp + 3 else mp - 9 in
  let y := yoe + era * 400 in
  (if m <=? 2 then y + 1 else y, m, d).

Definition digit (n : Z) : string :=
  String (ascii_of_nat (48 + Z.to_nat (n mod 10))) EmptyString.

Definition pad2 (n : Z) : string := digit (n / 10) ++ digit n.

Definition pad4 (n : Z) : string := pad2 (n / 100) ++ pad2 n.

Definition timestamp_str (t : Z) : string :=
  let '(y, m, d) := civil_from_days (t / 86400) in
  let s := t mod 86400 in
  pad4 y ++ "-" ++ pad2 m ++ "-" ++ pad2 d ++ " " ++
  pad2 (s / 3600) ++ ":" ++ pad2 (s / 60 mod 60) ++ ":" ++ pad2 (s mod 60).

(** [d[k] = v] on a dict, which keeps its keys in insertion order: a key
    already present keeps its place. *)
Fixpoint dict_set {V} (k : string) (v : V) (d : list (string * V))
  : list (string * V) :=
  match d with
  | [] => [(k, v)]
  | (k', v') :: d' =>
      if String.eqb k' k then (k', v) :: d' else (k', v') :: dict_set k v d'
  end.

(** The body of the loop of [get_index_components_history]. *)
Definition record_components (env : Env) (index : string) (date : Z)
    (historical_components : list (string * list Value))
  : M (list (string * list Value)) :=
  components_at_date <- get_index_components_at env index (Some date) ;;
  ret (dict_set (timestamp_str date) (df_index components_at_date)
         historical_components).

Definition get_index_components_history (env : Env) (index : string)
    (start_date end_date : option Z) (freq : string)
  : M (list (string * list Value)) :=
  let end_date := match end_date with Some e => e | None => date_today env end in
  dates <- lift (date_range env start_date end_date freq) ;;
  for_each (record_components env index) dates [].

(** ** One CSV file per date *)

(** A [str] is kept as its UTF-8 bytes. The one-byte white-space
    characters: *)
Definition is_space (c : ascii) : bool :=
  let n := nat_of_ascii c in
  ((9 <=? n) && (n <=? 13) || (28 <=? n) && (n <=? 32))%nat.

(** The length in bytes of the white-space character at the head of
    [s], [0] when [s] does not start with one. Beyond ASCII, [str.split()]
    splits on U+0085, U+00A0, U+1680, U+2000 to U+200A, U+2028, U+2029,
    U+202F, U+205F and U+3000, here in their UTF-8 encodings. *)
Definition space_len (s : string) : nat :=
  match s with
  | EmptyString => 0
  | String c rest =>
      if is_space c then 1
      else
        let b0 := nat_of_ascii c in
        match rest with
        | EmptyString => 0
        | String c1 rest1 =>
            let b1 := nat_of_ascii c1 in
            if ((b0 =? 194) && ((b1 =? 133) || (b1 =? 160)))%nat then 2
            else
              match rest1 with
              | EmptyString => 0
              | String c2 _ =>
                  let b2 := nat_of_ascii c2 in
                  if ((b0 =? 225) && (b1 =? 154) && (b2 =? 128))%nat then 3
                  else if ((b0 =? 226) && (b1 =? 128) &&
                           ((128 <=? b2) && (b2 <=? 138) ||
                            (b2 =? 168) || (b2 =? 169) || (b2 =? 175)))%nat
                       then 3
                  else if ((b0 =? 226) && (b1 =? 129) && (b2 =? 159))%nat then 3
                  else if ((b0 =? 227) && (b1 =? 128) && (b2 =? 128))%nat then 3
                  else 0
              end
        end
  end%nat.

(** [s.split()]: the maximal runs of characters that are not white
    space. [cur] is the run being read; [skip] counts the bytes still to
    pass of a white-space character already recognised. *)
Fixpoint split_go (cur : string) (skip : nat) (s : string) : list string :=
  match s with
  | EmptyString => if String.eqb cur "" then [] else [cur]
  | String c s' =>
      match skip with
      | S k => split_go cur k s'
      | O =>
          match space_len s with
          | O => split_go (cur ++ String c EmptyString) O s'
          | S k =>
              if String.eqb cur "" then split_go "" k s'
              else cur :: split_go "" k s'
          end
      end
  end.

Definition split (s : string) : list string := split_go "" O s.

(** The directory part of a path: what precedes its last slash. *)
Fixpoint dirname (path : string) : option string :=
  match path with
  | EmptyString => None
  | String c rest =>
      match dirname rest with
      | Some d => Some (String c d)
      | None => if Ascii.eqb c "/" then Some EmptyString else None
      end
  end.

Definition dir_exists (st : State) (path : string) : bool :=
  match dirname path with
  | None | Some EmptyString => true
  | Some d => bool_decide (d ∈ fs_dirs st)
  end.

(** The directories above a path: its prefixes at each slash. *)
Fixpoint ancestors_go (pre : string) (s : string) : list string :=
  match s with
  | EmptyString => []
  | String c s' =>
      (if Ascii.eqb c "/" then [pre] else []) ++
      ancestors_go (pre ++ String c EmptyString) s'
  end.

Definition ancestors (path : string) : list string := ancestors_go "" path.

Definition is_file (st : State) (path : string) : bool :=
  match fs_files st !! path with Some _ => true | None => false end.

Fixpoint has_nul (s : string) : bool :=
  match s with
  | EmptyString => false
  | String c s' => (nat_of_ascii c =? 0)%nat || has_nul s'
  end.

(** Why [open(path, 'w')] fails, when it does: a NUL in the name, a
    refusal of the operating system ([fs_denied]: permissions, a
    read-only or full file system), a directory under that name, a parent
    that is missing, or a regular file where a directory should be. *)
Definition open_error (st : State) (path : string) : option exn :=
  if has_nul path then Some ValueError
  else
    match fs_denied st !! path with
    | Some e => Some e
    | None =>
        if bool_decide (path ∈ fs_dirs st) then Some (IsADirectoryError path)
        else if dir_exists st path then None
        else if existsb (is_file st) (ancestors path)
             then Some (NotADirectoryError path)
             else Some (FileNotFoundError path)
    end.

Definition set_files (files : gmap string string) (st : State) : State :=
  {| trace := trace st;
     fs_dirs := fs_dirs st;
     fs_files := files;
     fs_denied := fs_denied st |}.

(** [open(path, 'w')]: the file is created or truncated. *)
Definition open_w (path : string) : M unit :=
  fun st =>
    match open_error st path with
    | Some e => (st, Raise e)
    | None => (set_files (<[path := ""]> (fs_files st)) st, Ok tt)
    end.

(** [f.write(content)] on the file opened at [path]. *)
Definition f_write (path content : string) : M unit :=
  fun st =>
    (set_files
       (<[path := default "" (fs_files st !! path) ++ content]> (fs_files st))
       st, Ok tt).

(** [sep.join(items)], every item a [str]. *)
Fixpoint join (sep : string) (items : list Value) : result string :=
  match items with
  | [] => Ok ""
  | [VStr s] => Ok s
  | VStr s :: rest =>
      match join sep rest with
      | Ok t => Ok (s ++ sep ++ t)
      | Raise e => Raise e
      end
  | _ :: _ => Raise TypeError
  end.

Definition csv_path (index formatted_date : string) : string :=
  index ++ "/" ++ index ++ "_" ++ formatted_date ++ ".csv".

(** The body of the loop of [components_to_separate_csv]. *)
Definition write_components (index : string)
    (item : string * list Value) : M unit :=
  let '(date, components_list) := item in
  if forallb is_str components_list then
    formatted_date <- lift (match split date with
                            | d :: _ => Ok d
                            | [] => Raise IndexError
                            end) ;;
    let path := csv_path index formatted_date in
    open_w path ;;;
    content <- lift (join "," components_list) ;;
    f_write path content
  else
    print [PText ("Skipping date " ++ date ++ " due to non-string components")].

Definition components_to_separate_csv
    (components : list (string * list Value)) (index : string) : M unit :=
  for_each (fun item _ => write_components index item) components tt.

(** ** The revisions endpoint

    The wiki itself is outside the script. This is the part of the
    revisions API the script relies on, as its docstring describes it:
    with [rvdir=older] the revisions are listed newest first, starting at
    [rvstart] and going back to [rvend]; with [rvdir=newer] oldest first,
    from [rvstart] forward to [rvend]; at most [rvlimit] are returned. A
    page with no revision to list carries no ["revisions"] key. *)

Record Revision : Type := mkRevision {
  revid : Z;
  parentid : Z;
  timestamp : Z;
  user : string;
  comment : string
}.

Definition revision_json (r : Revision) : Json :=
  JObj [ ("revid", JNum (revid r));
         ("parentid", JNum (parentid r));
         ("user", JStr (user r));
         ("timestamp", JNum (timestamp r));
         ("comment", JStr (comment r)) ].

Definition older_first (a b : Revision) : bool :=
  (timestamp a <? timestamp b) ||
  (timestamp a =? timestamp b) && (revid a <=? revid b).

Definition newer_first (a b : Revision) : bool := older_first b a.

Definition bound_ok (le : Z -> Z -> bool) (bound : option Json) (t : Z) : bool :=
  match bound with
  | Some (JNum b) => le b t
  | _ => true
  end.

Definition api_error : Json :=
  JObj [ ("error", JObj [ ("code", JStr "badvalue") ]) ].

Definition mediawiki (wiki : gmap string (list Revision))
    (params : gmap string Json) : result Json :=
  match params !! "titles", params !! "rvdir", params !! "rvlimit" with
  | Some (JStr title), Some (JStr rvdir), Some (JNum rvlimit) =>
      let listing :=
        if String.eqb rvdir "older" then
          Some (fun history =>
                  insertion_sort newer_first
                    (List.filter (fun r =>
                               bound_ok Z.geb (params !! "rvstart") (timestamp r) &&
                               bound_ok Z.leb (params !! "rvend") (timestamp r))
                       history))
        else if String.eqb rvdir "newer" then
          Some (fun history =>
                  insertion_sort older_first
                    (List.filter (fun r =>
                               bound_ok Z.leb (params !! "rvstart") (timestamp r) &&
                               bound_ok Z.geb (params !! "rvend") (timestamp r))
                       history))
        else None in
      match listing with
      | None => Ok api_error
      | Some list_revisions =>
          let page :=
            match wiki !! title with
            | None => [ ("title", JStr title); ("missing", JBool true) ]
            | Some history =>
                match firstn (Z.to_nat rvlimit) (list_revisions history) with
                | [] => [ ("title", JStr title) ]
                | revs =>
                    [ ("title", JStr title);
                      ("revisions", JArr (map revision_json revs)) ]
                end
            end in
          Ok (JObj [ ("batchcomplete", JBool true);
                     ("query", JObj [ ("pages", JArr [ JObj page ]) ]) ])
      end
  | _, _, _ => Ok api_error
  end.

(** * Vocabulary of the statements *)

(** ** The table scan *)

Definition lex_le (s t : string) : Prop := String.leb s t = true.

(** A table the scan passes over: neither header is among its columns. *)
Definition unrecognised (df : DataFrame) : Prop :=
  has_column "Symbol" df = false /\ has_column "Ticker symbol" df = false.

(** The column the scan re-keys a table on, ["Symbol"] taking precedence. *)
Definition matched_column (df : DataFrame) : option string :=
  if has_column "Symbol" df then Some "Symbol"
  else if has_column "Ticker symbol" df then Some "Ticker symbol"
  else None.

(** [df[name]]: the cells of a column, top to bottom. *)
Definition column (name : string) (df : DataFrame) : list Value :=
  match column_position name (df_columns df) with
  | Some i => map (fun row => nth i (snd row) VNaN) (df_rows df)
  | None => []
  end.

(** ** Sample tables *)

Definition legend_table : DataFrame :=
  {| df_columns := ["Note"];
     df_index_name := None;
     df_rows := [ (VNum 0, [VStr "Changes are listed below"]) ] |}.

Definition spx_table : DataFrame :=
  {| df_columns := ["Symbol"; "Security"];
     df_index_name := None;
     df_rows := [ (VNum 0, [VStr "AAPL"; VStr "Apple"]);
                  (VNum 1, [VStr "MSFT"; VStr "Microsoft"]);
                  (VNum 2, [VStr "GOOG"; VStr "Alphabet"]) ] |}.

Definition duplicate_table : DataFrame :=
  {| df_columns := ["Company"; "Ticker symbol"];
     df_index_name := None;
     df_rows := [ (VNum 0, [VStr "Alphabet C"; VStr "GOOG"]);
                  (VNum 1, [VStr "Unlisted"; VNaN]);
                  (VNum 2, [VStr "Apple"; VStr "AAPL"]);
                  (VNum 3, [VStr "Alphabet A"; VStr "GOOG"]) ] |}.

(** ** Runs of the lookup *)

Definition log (events : list Event) (st : State) : State :=
  {| trace := trace st ++ events;
     fs_dirs := fs_dirs st;
     fs_files := fs_files st;
     fs_denied := fs_denied st |}.

(** [data["query"]["pages"][0]["revisions"]] *)
Definition response_revisions (data : Json) : result Json :=
  match get_item data "query" with
  | Raise e => Raise e
  | Ok query =>
      match get_item query "pages" with
      | Raise e => Raise e
      | Ok pages =>
          match get_first pages with
          | Raise e => Raise e
          | Ok page0 => get_item page0 "revisions"
          end
      end
  end.

(** What one call of [get_revisions_metadata] prints and requests, and
    what it returns, as a function of the session's answer. *)
Definition lookup_events (qp : gmap string Json) (answer : result Json)
  : list Event :=
  [ Stdout [PText "query_params"]; Stdout [PParams qp];
    ApiGet wikipedia_api_url qp ] ++
  match answer with
  | Raise _ => []
  | Ok data =>
      Stdout [PText "response:"; PJson data] ::
      match response_revisions data with
      | Raise _ => []
      | Ok revisions => [ Stdout [PText "revision"]; Stdout [PJson revisions] ]
      end
  end.

Definition lookup_result (answer : result Json) : result Json :=
  match answer with
  | Raise e => Raise e
  | Ok data => response_revisions data
  end.

(** The same for [get_index_components_at], once the page is known. *)
Definition fetch_events (page : string) (revisions : result Json) : list Event :=
  match revisions with
  | Raise _ => []
  | Ok revisions =>
      match get_first revisions with
      | Raise _ => []
      | Ok revision =>
          match get_item revision "timestamp" with
          | Raise _ => []
          | Ok ts =>
              Stdout [PText "Got results from "; PJson ts] ::
              match get_item revision "revid" with
              | Raise _ => []
              | Ok revid => [ ReadHtml (page_url page revid) ]
              end
          end
      end
  end.

Definition fetch_result (env : Env) (page : string) (revisions : result Json)
  : result DataFrame :=
  match revisions with
  | Raise e => Raise e
  | Ok revisions =>
      match get_first revisions with
      | Raise e => Raise e
      | Ok revision =>
          match get_item revision "timestamp" with
          | Raise e => Raise e
          | Ok _ =>
              match get_item revision "revid" with
              | Raise e => Raise e
              | Ok revid =>
                  match read_html env (page_url page revid) with
                  | Raise e => Raise e
                  | Ok table => components_of_tables table
                  end
              end
          end
      end
  end.

Definition when_or_today (env : Env) (when : option Z) : Z :=
  match when with Some w => w | None => datetime_today env end.

(** ** The endpoint's listing *)

Definition before (bound : option Z) (t : Z) : bool :=
  match bound with Some b => t <=? b | None => true end.

Definition after (bound : option Z) (t : Z) : bool :=
  match bound with Some b => b <=? t | None => true end.

(** The timestamps a query lists: with [older], from [rvstart] back to
    [rvend]; with [newer], from [rvstart] on to [rvend]. *)
Definition in_range (rvdir : string) (rvstart rvend : option Z) (t : Z) : bool :=
  if String.eqb rvdir "older" then before rvstart t && after rvend t
  else after rvstart t && before rvend t.

Definition listing (rvdir : string) (rvstart rvend : option Z)
    (history : list Revision) : list Revision :=
  insertion_sort (if String.eqb rvdir "older" then newer_first else older_first)
    (List.filter (fun r => in_range rvdir rvstart rvend (timestamp r)) history).

(** The one revision a query with [rvlimit = 1] and no [rvend] lists: it
    lies on the requested side of [date] and is the nearest there. *)
Definition nearest (rvdir : string) (date : Z) (history : list Revision)
    (r : Revision) : Prop :=
  In r history /\
  ((rvdir = "older" /\ timestamp r <= date /\
    forall r', In r' history -> timestamp r' <= date ->
               timestamp r' <= timestamp r) \/
   (rvdir = "newer" /\ date <= timestamp r /\
    forall r', In r' history -> date <= timestamp r' ->
               timestamp r <= timestamp r')).

(** ** Sample wiki *)

Definition spx_page : string := "List of S&P 500 companies".

Definition spx_history : list Revision :=
  [ {| revid := 638904497; parentid := 0; timestamp := 1419033600;
       user := "A"; comment := "created" |};
    {| revid := 651482045; parentid := 638904497; timestamp := 1426377600;
       user := "B"; comment := "index change" |};
    {| revid := 669294121; parentid := 651482045; timestamp := 1435622400;
       user := "C"; comment := "index change" |} ].

Definition sample_wiki : gmap string (list Revision) :=
  {[ spx_page := spx_history ]}.

Definition empty_state : State :=
  {| trace := []; fs_dirs := ∅; fs_files := ∅; fs_denied := ∅ |}.

(** ** The history *)

(** Following the spec's words: the sample dates are visited in order;
    each one is looked up and its table extracted, and the symbol list is
    recorded under the date, the pairs standing in date order. *)
Fixpoint assemble (env : Env) (index : string) (dates : list Z)
  : M (list (string * list Value)) :=
  match dates with
  | [] => ret []
  | date :: dates' =>
      components_at_date <- get_index_components_at env index (Some date) ;;
      rest <- assemble env index dates' ;;
      ret ((timestamp_str date, df_index components_at_date) :: rest)
  end.

Definition end_or_today (env : Env) (end_date : option Z) : Z :=
  match end_date with Some e => e | None => date_today env end.

(** ** Requests in a trace *)

Definition is_api_get (e : Event) : bool :=
  match e with ApiGet _ _ => true | _ => false end.

Definition is_read_html (e : Event) : bool :=
  match e with ReadHtml _ => true | _ => false end.

Definition api_gets (events : list Event) : nat :=
  length (List.filter is_api_get events).

Definition page_reads (events : list Event) : nat :=
  length (List.filter is_read_html events).

(** ** Sample environment *)

Definition sample_read_html (u : Url) : result (list DataFrame) :=
  match url_oldid u with
  | JNum n =>
      if n =? 638904497 then Ok [legend_table; spx_table]
      else if n =? 651482045 then Ok [duplicate_table]
      else Raise ValueError
  | _ => Raise HTTPError
  end.

(** Quarter starts of 2015 up to the end date. *)
Definition sample_date_range (start_date : option Z) (end_date : Z)
    (freq : string) : result (list Z) :=
  Ok (List.filter (fun d => d <=? end_date)
        [1420070400; 1427846400; 1435708800]).

Definition sample_env : Env :=
  {| session := mediawiki sample_wiki;
     read_html := sample_read_html;
     date_range := sample_date_range;
     datetime_today := 1436000000;
     date_today := 1435968000 |}.

(** ** The snapshot writer *)

Definition skip_warning (date : string) : Event :=
  Stdout [PText ("Skipping date " ++ date ++ " due to non-string components")].

Definition sample_fs : State :=
  {| trace := []; fs_dirs := {[ "SPX" ]}; fs_files := ∅; fs_denied := ∅ |}.

(** ** Further vocabulary *)

(** The names of the parameters of [get_revisions_metadata]: a keyword
    argument so named binds the parameter and does not reach [kwargs]. *)
Definition parameter_names : list string :=
  ["page_title"; "rvstart"; "rvend"; "rvdir"; "rvlimit"; "S"].

(** What [**kwargs] can hold: keys that are distinct and are not names of
    parameters. *)
Definition bindable (kwargs : list (string * Json)) : Prop :=
  List.NoDup (map fst kwargs) /\
  forall k, In k (map fst kwargs) -> ~ In k parameter_names.

(** The parameters the function sets by itself, by name. *)
Definition built_in_parameters (page_title : string) (rvstart rvend : option Z)
    (rvdir : string) (rvlimit : Z) : list (string * Json) :=
  [ ("action", JStr "query");
    ("prop", JStr "revisions");
    ("titles", JStr page_title);
    ("rvprop", JStr "ids|timestamp|user|comment");
    ("rvslots", JStr "main");
    ("formatversion", JStr "2");
    ("format", JStr "json");
    ("rvlimit", JNum rvlimit);
    ("rvdir", JStr rvdir) ] ++
  match rvstart with Some t => [("rvstart", isoformat t)] | None => [] end ++
  match rvend with Some t => [("rvend", isoformat t)] | None => [] end.

Definition sample_kwargs : list (string * Json) :=
  [ ("rvprop", JStr "ids"); ("rvuser", JStr "Example") ].

(** A daily range that yields the same day twice. *)
Definition repeated_dates : list Z := [1420070400; 1420070400].

Definition repeating_env : Env :=
  {| session := mediawiki sample_wiki;
     read_html := sample_read_html;
     date_range := fun _ _ _ => Ok repeated_dates;
     datetime_today := 1436000000;
     date_today := 1435968000 |}.

Definition repeated_history : list (string * list Value) :=
  [ ("2015-01-01 00:00:00", [VStr "AAPL"; VStr "GOOG"; VStr "MSFT"]) ].

Definition mixed_table : DataFrame :=
  {| df_columns := ["Symbol"; "Security"];
     df_index_name := None;
     df_rows := [ (VNum 0, [VStr "AAPL"; VStr "Apple"]);
                  (VNum 1, [VNum 700; VStr "Tencent"]) ] |}.

Definition both_headers_table : DataFrame :=
  {| df_columns := ["Ticker symbol"; "Security"; "Symbol"];
     df_index_name := None;
     df_rows := [ (VNum 0, [VStr "GOOGL"; VStr "Alphabet"; VStr "GOOG"]);
                  (VNum 1, [VStr "AAPL.O"; VStr "Apple"; VStr "AAPL"]) ] |}.

Definition both_headers_result : DataFrame :=
  {| df_columns := ["Ticker symbol"; "Security"];
     df_index_name := Some "Symbol";
     df_rows := [ (VStr "AAPL", [VStr "AAPL.O"; VStr "Apple"]);
                  (VStr "GOOG", [VStr "GOOGL"; VStr "Alphabet"]) ] |}.

Definition numeric_table : DataFrame :=
  {| df_columns := ["Symbol"; "Name"];
     df_index_name := None;
     df_rows := [ (VNum 0, [VNum 10; VStr "Ten"]);
                  (VNum 1, [VNum 9; VStr "Nine"]);
                  (VNum 2, [VNum 700; VStr "Seven hundred"]) ] |}.

(** [components_list], its strings. *)
Definition texts (items : list Value) : list string :=
  flat_map (fun v => match v with VStr s => [s] | _ => [] end) items.

(** The write a pair causes, if any: the path and the content. *)
Definition snapshot_of (index : string) (item : string * list Value)
  : list (string * string) :=
  if forallb is_str (snd item) then
    match split (fst item) with
    | formatted_date :: _ =>
        [ (csv_path index formatted_date,
           String.concat "," (texts (snd item))) ]
    | [] => []
    end
  else [].

Definition csv_writes (index : string)
    (components : list (string * list Value)) : list (string * string) :=
  flat_map (snapshot_of index) components.

Definition apply_writes (writes : list (string * string))
    (files : gmap string string) : gmap string string :=
  fold_left (fun f w => <[fst w := snd w]> f) writes files.

Definition hourly_components : list (string * list Value) :=
  [ ("2015-01-01 00:00:00", [VStr "AAPL"; VStr "GOOG"]);
    ("2015-01-01 01:00:00", [VStr "AAPL"; VStr "MSFT"]) ].

(** The date and time parts of [timestamp_str]. *)
Definition date_str (t : Z) : string :=
  let '(y, m, d) := civil_from_days (t / 86400) in
  pad4 y ++ "-" ++ pad2 m ++ "-" ++ pad2 d.




(** U+00A0, the no-break space, in UTF-8. *)
Definition no_break_space : string :=
  String (ascii_of_nat 194) (String (ascii_of_nat 160) EmptyString).

Definition denied_fs : State :=
  {| trace := [];
     fs_dirs := {[ "SPX" ]};
     fs_files := ∅;
     fs_denied := {[ "SPX/SPX_2015-01-01.csv" :=
                       PermissionError "SPX/SPX_2015-01-01.csv" ]} |}.

(** * Properties *)

(** ** Order on strings *)

Lemma lex_le_cases s t : lex_le s t <-> s = t \/ String_as_OT.lt s t.
Proof.
  unfold lex_le, String.leb.
  destruct (String.compare s t) eqn:E.
  - apply String_as_OT.cmp_eq in E. tauto.
  - apply String_as_OT.cmp_lt in E. tauto.
  - split; [discriminate |].
    intros [-> | H].
    + assert (String.compare t t = Eq) by (apply String_as_OT.cmp_eq; reflexivity).
      congruence.
    + apply String_as_OT.cmp_lt in H. unfold String_as_OT.cmp in H. congruence.
Qed.

Lemma lex_le_trans s t u : lex_le s t -> lex_le t u -> lex_le s u.
Proof.
  rewrite !lex_le_cases.
  intros [-> | H1] [-> | H2]; auto.
  right. eapply String_as_OT.lt_trans; eassumption.
Qed.

Lemma lex_le_total s t : lex_le s t \/ lex_le t s.
Proof. apply String.leb_total. Qed.

(** ** Insertion sort *)

Section InsertionSortFacts.
Context {A : Type} (leb : A -> A -> bool).

Lemma insert_sorted_perm x l : Permutation (insert_sorted leb x l) (x :: l).
Proof.
  induction l as [| y l IH]; simpl; [reflexivity |].
  destruct (leb x y); [reflexivity |].
  rewrite IH. apply perm_swap.
Qed.

Lemma insertion_sort_perm l : Permutation (insertion_sort leb l) l.
Proof.
  induction l as [| x l IH]; simpl; [reflexivity |].
  rewrite insert_sorted_perm. constructor. exact IH.
Qed.

Lemma insertion_sort_In x l : In x (insertion_sort leb l) <-> In x l.
Proof.
  split; apply Permutation_in;
    [| apply Permutation_sym]; apply insertion_sort_perm.
Qed.

Lemma insert_sorted_Sorted x l :
  (forall y, In y l -> leb x y = true \/ leb y x = true) ->
  Sorted (le_of leb) l -> Sorted (le_of leb) (insert_sorted leb x l).
Proof.
  induction l as [| y l IH]; simpl; intros Htot Hs.
  - repeat constructor.
  - destruct (leb x y) eqn:E.
    + constructor; [exact Hs | constructor; exact E].
    + inversion Hs as [| ? ? Hs' Hhd]; subst.
      constructor.
      * apply IH; auto.
      * destruct (Htot y) as [H | H]; [now left | congruence |].
        destruct l as [| z l]; simpl.
        { constructor. exact H. }
        destruct (leb x z); constructor; [exact H |].
        inversion Hhd; assumption.
Qed.

Lemma insertion_sort_Sorted l :
  (forall x y, In x l -> In y l -> leb x y = true \/ leb y x = true) ->
  Sorted (le_of leb) (insertion_sort leb l).
Proof.
  induction l as [| x l IH]; simpl; intros Htot; [constructor |].
  apply insert_sorted_Sorted.
  - intros y Hy. apply (proj1 (insertion_sort_In y l)) in Hy.
    apply Htot; [left; reflexivity | right; exact Hy].
  - apply IH. intros a b Ha Hb. apply Htot; right; assumption.
Qed.
End InsertionSortFacts.

(** ** The table scan *)

Lemma column_position_some name cols :
  existsb (String.eqb name) cols = true ->
  exists i, column_position name cols = Some i.
Proof.
  induction cols as [| c cols IH]; simpl; [discriminate |].
  destruct (String.eqb name c); simpl; [eauto |].
  intros H. destruct (IH H) as [i Hi]. rewrite Hi. simpl. eauto.
Qed.

Lemma column_position_first name cols i :
  column_position name cols = Some i ->
  nth_error cols i = Some name /\ ~ In name (firstn i cols).
Proof.
  revert i. induction cols as [| c cols IH]; intros i; simpl; [discriminate |].
  destruct (String.eqb_spec name c) as [-> | Hne].
  - intros [= <-]. split; [reflexivity | intros []].
  - destruct (column_position name cols) as [j |]; [| discriminate].
    simpl. intros [= <-]. destruct (IH j eq_refl) as [Hnth Hfirst].
    split; [exact Hnth |]. simpl. intros [Hc | Hin]; [congruence | auto].
Qed.

Lemma drop_nth_firstn_skipn {A} i (l : list A) :
  drop_nth i l = (firstn i l ++ skipn (S i) l)%list.
Proof.
  revert i. induction l as [| x l IH]; intros [| i]; try reflexivity.
  simpl. f_equal. apply IH.
Qed.

Lemma rekey_cells i (row : Value * list Value) :
  rekey i row =
  (nth i (snd row) VNaN, (firstn i (snd row) ++ skipn (S i) (snd row))%list).
Proof. unfold rekey. rewrite drop_nth_firstn_skipn. reflexivity. Qed.

Lemma matched_column_position df col :
  matched_column df = Some col ->
  has_column col df = true /\
  exists i, column_position col (df_columns df) = Some i.
Proof.
  unfold matched_column.
  destruct (has_column "Symbol" df) eqn:E1;
    [| destruct (has_column "Ticker symbol" df) eqn:E2; [| discriminate]];
    intros [= <-]; (split; [assumption |]);
    apply column_position_some; assumption.
Qed.

Lemma scan_tables_skip pre rest df :
  Forall unrecognised pre -> rest <> [] ->
  exists df', scan_tables (pre ++ rest) df = scan_tables rest df'.
Proof.
  intros Hpre Hrest. revert df.
  induction Hpre as [| t pre [H1 H2] _ IH]; intros df; simpl; [eauto |].
  rewrite H1, H2. apply IH.
Qed.

Lemma scan_tables_no_match tables df :
  Forall unrecognised tables ->
  scan_tables tables df = Ok (last (option_list df ++ tables)).
Proof.
  intros H. revert df.
  induction H as [| t tables [H1 H2] _ IH]; intros df; simpl.
  - destruct df; reflexivity.
  - rewrite H1, H2, IH. f_equal. simpl.
    destruct df; simpl; [destruct tables |]; reflexivity.
Qed.

Lemma scan_tables_first_match pre t post col i df :
  Forall unrecognised pre ->
  matched_column t = Some col ->
  column_position col (df_columns t) = Some i ->
  scan_tables (pre ++ t :: post) df =
  Ok (Some {| df_columns := drop_nth i (df_columns t);
              df_index_name := Some col;
              df_rows := map (rekey i) (df_rows t) |}).
Proof.
  intros Hpre Hcol Hi.
  destruct (scan_tables_skip pre (t :: post) df Hpre) as [df' ->]; [discriminate |].
  unfold matched_column in Hcol. simpl.
  destruct (has_column "Symbol" t);
    [| destruct (has_column "Ticker symbol" t); [| discriminate]];
    injection Hcol as <-; unfold set_index; rewrite Hi; reflexivity.
Qed.

(** ** Sorting a frame whose labels are text or missing *)

Lemma filter_partition_perm {A} (f : A -> bool) (l : list A) :
  Permutation (List.filter (fun x => negb (f x)) l ++ List.filter f l) l.
Proof.
  induction l as [| x l IH]; simpl; [reflexivity |].
  destruct (f x); simpl.
  - rewrite <- Permutation_middle. constructor. exact IH.
  - constructor. exact IH.
Qed.

Lemma text_rows_total (rows : list (Value * list Value)) :
  Forall (fun r => is_str (fst r) = true) rows ->
  forall x y, In x rows -> In y rows ->
    row_leb x y = true \/ row_leb y x = true.
Proof.
  intros H x y Hx Hy. rewrite List.Forall_forall in H.
  pose proof (H x Hx) as Sx. pose proof (H y Hy) as Sy.
  unfold row_leb. destruct (fst x), (fst y); try discriminate.
  simpl. apply String.leb_total.
Qed.

Lemma text_rows_symbols (rows : list (Value * list Value)) :
  Forall (fun r => is_str (fst r) = true) rows ->
  Sorted (le_of row_leb) rows ->
  exists symbols, map fst rows = map VStr symbols /\ Sorted lex_le symbols.
Proof.
  induction rows as [| [k cells] rows IH]; intros Hs Hsorted.
  - exists []. split; [reflexivity | constructor].
  - inversion Hs as [| ? ? Hk Hs']; subst.
    inversion Hsorted as [| ? ? Hsorted' Hhd]; subst.
    destruct (IH Hs' Hsorted') as (symbols & Hmap & Hsym).
    destruct k as [s | |]; try discriminate.
    exists (s :: symbols). split; [simpl; congruence |].
    constructor; [exact Hsym |].
    destruct rows as [| [k' cells'] rows]; destruct symbols as [| s' symbols];
      try discriminate; constructor.
    injection Hmap as -> _. inversion Hhd as [| ? ? Hle]; subst.
    exact Hle.
Qed.

Lemma sort_index_text df :
  Forall (fun r => is_num (fst r) = false) (df_rows df) ->
  exists sorted missing symbols,
    sort_index df = Ok {| df_columns := df_columns df;
                          df_index_name := df_index_name df;
                          df_rows := sorted ++ missing |} /\
    Permutation (sorted ++ missing) (df_rows df) /\
    map fst sorted = map VStr symbols /\
    StronglySorted lex_le symbols /\
    Forall (fun r => fst r = VNaN) missing.
Proof.
  intros Hrows. unfold sort_index.
  set (present := List.filter (fun r => negb (isna (fst r))) (df_rows df)).
  set (missing := List.filter (fun r => isna (fst r)) (df_rows df)).
  assert (Htext : Forall (fun r => is_str (fst r) = true) present).
  { apply List.Forall_forall. intros r Hr. apply filter_In in Hr as [Hin Hna].
    rewrite List.Forall_forall in Hrows. specialize (Hrows r Hin).
    destruct (fst r); try discriminate; reflexivity. }
  assert (Hcmp : comparable (map fst present) = true).
  { unfold comparable. apply orb_true_iff. left.
    apply forallb_forall. intros v Hv. apply in_map_iff in Hv as (r & <- & Hr).
    rewrite List.Forall_forall in Htext. auto. }
  rewrite Hcmp.
  assert (Htext' : Forall (fun r => is_str (fst r) = true)
                     (insertion_sort row_leb present)).
  { apply List.Forall_forall. intros r Hr.
    apply (proj1 (insertion_sort_In row_leb r present)) in Hr.
    rewrite List.Forall_forall in Htext. auto. }
  destruct (text_rows_symbols _ Htext') as (symbols & Hmap & Hsym).
  { apply insertion_sort_Sorted. apply text_rows_total. exact Htext. }
  exists (insertion_sort row_leb present), missing, symbols.
  repeat split.
  - rewrite insertion_sort_perm. apply filter_partition_perm.
  - exact Hmap.
  - apply Sorted_StronglySorted; [| exact Hsym].
    intros a b c. apply lex_le_trans.
  - apply List.Forall_forall. intros r Hr. apply filter_In in Hr as [_ Hna].
    destruct (fst r); try discriminate; reflexivity.
Qed.

Lemma components_of_first_match pre t post col i :
  Forall unrecognised pre ->
  matched_column t = Some col ->
  column_position col (df_columns t) = Some i ->
  Forall (fun v => is_num v = false) (column col t) ->
  exists sorted missing symbols,
    components_of_tables (pre ++ t :: post) =
      Ok {| df_columns := drop_nth i (df_columns t);
            df_index_name := Some "Symbol";
            df_rows := sorted ++ missing |} /\
    Permutation (sorted ++ missing) (map (rekey i) (df_rows t)) /\
    map fst sorted = map VStr symbols /\
    StronglySorted lex_le symbols /\
    Forall (fun r => fst r = VNaN) missing.
Proof.
  intros Hpre Hcol Hi Htext.
  unfold components_of_tables.
  rewrite (scan_tables_first_match pre t post col i None Hpre Hcol Hi).
  apply (sort_index_text
           (set_index_name "Symbol"
              {| df_columns := drop_nth i (df_columns t);
                 df_index_name := Some col;
                 df_rows := map (rekey i) (df_rows t) |})).
  simpl. unfold column in Htext. rewrite Hi in Htext.
  rewrite Forall_map in Htext. rewrite Forall_map. exact Htext.
Qed.

(** ** Claims about the table scan *)

(** C1, as stated, fails on a symbol column that was read as numbers:
    the rows come back ordered by value, 9 before 10, where the
    lexicographic order of the symbol strings puts "10" first. A column
    mixing text and numbers returns no rows at all. *)
Lemma numeric_symbols_not_lexicographic :
  matched_column numeric_table = Some "Symbol" /\
  components_of_tables [numeric_table] =
    Ok {| df_columns := ["Name"];
          df_index_name := Some "Symbol";
          df_rows := [ (VNum 9, [VStr "Nine"]);
                       (VNum 10, [VStr "Ten"]);
                       (VNum 700, [VStr "Seven hundred"]) ] |} /\
  String.leb "9" "10" = false /\
  String.leb "10" "700" = true /\
  String.leb "700" "9" = true /\
  matched_column mixed_table = Some "Symbol" /\
  components_of_tables [mixed_table] = Raise TypeError.
Proof. repeat split. Qed.

(** C1, amended. When some table of the document has a column named
    "Symbol" or "Ticker symbol" and the symbol cells of the first such
    table are text or empty, the scan passes over the tables before it
    and selects it. Its rows are re-keyed on that column, taken at its
    first position [i] among the columns: the column leaves the columns,
    each row's label becomes its cell at [i] and the other cells stay in
    order. The index is named "Symbol", and the rows come back ordered by
    symbol, ascending in the byte-wise (case-sensitive) lexicographic
    order, the rows whose symbol cell is empty after the sorted ones. *)
Theorem first_recognised_table_sorted_by_symbol pre t post col :
  Forall unrecognised pre ->
  matched_column t = Some col ->
  Forall (fun v => is_num v = false) (column col t) ->
  exists i sorted missing symbols,
    nth_error (df_columns t) i = Some col /\
    ~ In col (firstn i (df_columns t)) /\
    column col t = map (fun row => nth i (snd row) VNaN) (df_rows t) /\
    components_of_tables (pre ++ t :: post) =
      Ok {| df_columns :=
              (firstn i (df_columns t) ++ skipn (S i) (df_columns t))%list;
            df_index_name := Some "Symbol";
            df_rows := (sorted ++ missing)%list |} /\
    Permutation (sorted ++ missing)
      (map (fun row =>
              (nth i (snd row) VNaN,
               (firstn i (snd row) ++ skipn (S i) (snd row))%list))
         (df_rows t)) /\
    map fst sorted = map VStr symbols /\
    StronglySorted lex_le symbols /\
    Forall (fun r => fst r = VNaN) missing.
Proof.
  intros Hpre Hcol Htext.
  destruct (matched_column_position t col Hcol) as (_ & i & Hi).
  destruct (components_of_first_match pre t post col i Hpre Hcol Hi Htext)
    as (sorted & missing & symbols & Hrun & Hperm & Hmap & Hsorted & Hmiss).
  destruct (column_position_first col (df_columns t) i Hi) as [Hnth Hfirst].
  exists i, sorted, missing, symbols.
  split; [exact Hnth |]. split; [exact Hfirst |].
  split; [unfold column; rewrite Hi; reflexivity |].
  split; [rewrite <- drop_nth_firstn_skipn; exact Hrun |].
  split; [| auto].
  rewrite Hperm. rewrite (map_ext _ _ (rekey_cells i)). reflexivity.
Qed.

Lemma first_recognised_table_sorted_by_symbol_witness :
  exists i sorted missing symbols,
    nth_error (df_columns spx_table) i = Some "Symbol" /\
    ~ In "Symbol" (firstn i (df_columns spx_table)) /\
    column "Symbol" spx_table =
      map (fun row => nth i (snd row) VNaN) (df_rows spx_table) /\
    components_of_tables ([legend_table] ++ spx_table :: [duplicate_table]) =
      Ok {| df_columns :=
              (firstn i (df_columns spx_table) ++
               skipn (S i) (df_columns spx_table))%list;
            df_index_name := Some "Symbol";
            df_rows := (sorted ++ missing)%list |} /\
    Permutation (sorted ++ missing)
      (map (fun row =>
              (nth i (snd row) VNaN,
               (firstn i (snd row) ++ skipn (S i) (snd row))%list))
         (df_rows spx_table)) /\
    map fst sorted = map VStr symbols /\
    StronglySorted lex_le symbols /\
    Forall (fun r => fst r = VNaN) missing.
Proof.
  apply (first_recognised_table_sorted_by_symbol
           [legend_table] spx_table [duplicate_table] "Symbol").
  - repeat constructor.
  - reflexivity.
  - repeat constructor.
Defined.

(** The spec's scenario: rows AAPL, MSFT, GOOG come back as AAPL, GOOG,
    MSFT, the legend table before them being passed over. *)
Example spx_scenario :
  components_of_tables [legend_table; spx_table] =
  Ok {| df_columns := ["Security"];
        df_index_name := Some "Symbol";
        df_rows := [ (VStr "AAPL", [VStr "Apple"]);
                     (VStr "GOOG", [VStr "Alphabet"]);
                     (VStr "MSFT", [VStr "Microsoft"]) ] |}.
Proof. reflexivity. Qed.

(** C2. A document none of whose tables has a recognised header does not
    make the scan fail: the loop variable is left on the last table, and
    that table is what gets its index named "Symbol", sorted and
    returned. *)
Theorem unrecognised_document_returns_last_table tables t :
  Forall unrecognised (tables ++ [t]) ->
  components_of_tables (tables ++ [t]) =
  sort_index (set_index_name "Symbol" t).
Proof.
  intros H. unfold components_of_tables.
  rewrite (scan_tables_no_match (tables ++ [t]) None H).
  simpl option_list. rewrite app_nil_l, last_snoc. reflexivity.
Qed.

Lemma unrecognised_document_returns_last_table_witness :
  components_of_tables ([] ++ [legend_table]) =
  sort_index (set_index_name "Symbol" legend_table).
Proof.
  apply (unrecognised_document_returns_last_table [] legend_table).
  repeat constructor.
Defined.

(** A document holding the legend table alone: the legend comes back as
    if it were the components, its row numbers under the name "Symbol". *)
Example legend_only_document :
  components_of_tables [legend_table] =
  Ok {| df_columns := ["Note"];
        df_index_name := Some "Symbol";
        df_rows := [ (VNum 0, [VStr "Changes are listed below"]) ] |}.
Proof. reflexivity. Qed.

(** C3, as stated, fails: a matched table with a repeated symbol and an
    empty symbol cell is returned, not rejected. *)
Lemma duplicate_symbols_not_rejected :
  components_of_tables [duplicate_table] =
  Ok {| df_columns := ["Company"];
        df_index_name := Some "Symbol";
        df_rows := [ (VStr "AAPL", [VStr "Apple"]);
                     (VStr "GOOG", [VStr "Alphabet C"]);
                     (VStr "GOOG", [VStr "Alphabet A"]);
                     (VNaN, [VStr "Unlisted"]) ] |}.
Proof. reflexivity. Qed.

(** C3, amended. The scan validates nothing: for every matched table
    whose symbol cells are text or empty, repeated and empty symbols
    included, a table is returned whose index holds every cell of the
    symbol column with its multiplicity, the empty ones last. *)
Theorem matched_table_keeps_every_symbol pre t post col :
  Forall unrecognised pre ->
  matched_column t = Some col ->
  Forall (fun v => is_num v = false) (column col t) ->
  exists r,
    components_of_tables (pre ++ t :: post) = Ok r /\
    Permutation (df_index r) (column col t) /\
    length (df_rows r) = length (df_rows t) /\
    df_index r =
      (List.filter (fun v => negb (isna v)) (df_index r) ++
       List.filter isna (df_index r))%list.
Proof.
  intros Hpre Hcol Htext.
  destruct (matched_column_position t col Hcol) as (_ & i & Hi).
  destruct (components_of_first_match pre t post col i Hpre Hcol Hi Htext)
    as (sorted & missing & symbols & Hrun & Hperm & Hmap & _ & Hmiss).
  eexists. split; [exact Hrun |].
  unfold df_index, column. rewrite Hi. simpl.
  repeat split.
  - rewrite Hperm, map_map. reflexivity.
  - rewrite (Permutation_length Hperm). apply length_map.
  - rewrite map_app, !List.filter_app, Hmap.
    assert (H1 : forall l, List.filter (fun v => negb (isna v)) (map VStr l)
                           = map VStr l)
      by (induction l as [| s l IH]; simpl; congruence).
    assert (H2 : forall l, List.filter isna (map VStr l) = [])
      by (induction l as [| s l IH]; simpl; congruence).
    assert (H3 : List.filter (fun v => negb (isna v)) (map fst missing) = [] /\
                 List.filter isna (map fst missing) = map fst missing).
    { clear -Hmiss. induction Hmiss as [| r l Hr _ [IH1 IH2]]; simpl; [auto |].
      rewrite Hr. simpl. rewrite IH1, IH2. auto. }
    destruct H3 as [H3 H4].
    rewrite H1, H2, H3, H4, app_nil_r. reflexivity.
Qed.

Lemma matched_table_keeps_every_symbol_witness :
  exists r,
    components_of_tables ([legend_table] ++ duplicate_table :: []) = Ok r /\
    Permutation (df_index r) (column "Ticker symbol" duplicate_table) /\
    length (df_rows r) = length (df_rows duplicate_table) /\
    df_index r =
      (List.filter (fun v => negb (isna v)) (df_index r) ++
       List.filter isna (df_index r))%list.
Proof.
  apply (matched_table_keeps_every_symbol
           [legend_table] duplicate_table [] "Ticker symbol").
  - repeat constructor.
  - reflexivity.
  - repeat constructor.
Defined.

(** ** Running the effectful code *)

Lemma trace_log events st : trace (log events st) = (trace st ++ events)%list.
Proof. reflexivity. Qed.

Lemma log_log ev1 ev2 st : log ev2 (log ev1 st) = log (ev1 ++ ev2) st.
Proof. unfold log. simpl. rewrite <- app_assoc. reflexivity. Qed.

Lemma query_params_lookup page rvstart rvend rvdir rvlimit :
  let qp := query_params page rvstart rvend rvdir rvlimit [] in
  qp !! "titles" = Some (JStr page) /\
  qp !! "rvdir" = Some (JStr rvdir) /\
  qp !! "rvlimit" = Some (JNum rvlimit) /\
  qp !! "rvstart" = option_map JNum rvstart /\
  qp !! "rvend" = option_map JNum rvend.
Proof.
  unfold query_params, isoformat. simpl.
  destruct rvstart, rvend; simpl; repeat split; by simplify_map_eq.
Qed.

Lemma get_revisions_metadata_run S page rvstart rvend rvdir rvlimit kwargs st :
  let qp := query_params page rvstart rvend rvdir rvlimit kwargs in
  get_revisions_metadata S page rvstart rvend rvdir rvlimit kwargs st =
  (log (lookup_events qp (S qp)) st, lookup_result (S qp)).
Proof.
  intros qp. unfold get_revisions_metadata, lookup_events, lookup_result,
    response_revisions, bind, print, emit, lift, ret, log.
  fold qp. simpl.
  destruct (S qp) as [data | e]; simpl;
    [| rewrite <- !app_assoc; reflexivity].
  destruct (get_item data "query") as [query | e]; simpl;
    [| rewrite <- !app_assoc; reflexivity].
  destruct (get_item query "pages") as [pages | e]; simpl;
    [| rewrite <- !app_assoc; reflexivity].
  destruct (get_first pages) as [page0 | e]; simpl;
    [| rewrite <- !app_assoc; reflexivity].
  destruct (get_item page0 "revisions") as [revisions | e]; simpl;
    rewrite <- !app_assoc; reflexivity.
Qed.

Lemma get_index_components_at_run env index page when st :
  assoc index wikipedia_pages = Some page ->
  let qp := query_params page (Some (when_or_today env when)) None "older" 1 [] in
  let answer := session env qp in
  get_index_components_at env index when st =
  (log (lookup_events qp answer ++ fetch_events page (lookup_result answer)) st,
   fetch_result env page (lookup_result answer)).
Proof.
  intros Hpage qp answer.
  unfold get_index_components_at. rewrite Hpage.
  unfold bind at 1. unfold lift at 1.
  unfold bind at 1.
  rewrite get_revisions_metadata_run.
  fold (when_or_today env when). fold qp. fold answer.
  rewrite <- log_log.
  generalize (log (lookup_events qp answer) st) as st1. intros st1.
  unfold fetch_events, fetch_result.
  destruct (lookup_result answer) as [revisions | e];
    [| destruct st1; unfold log; simpl; rewrite app_nil_r; reflexivity].
  unfold bind, lift, print, emit, ret.
  destruct (get_first revisions) as [revision | e];
    [| destruct st1; unfold log; simpl; rewrite app_nil_r; reflexivity].
  destruct (get_item revision "timestamp") as [ts | e];
    [| destruct st1; unfold log; simpl; rewrite app_nil_r; reflexivity].
  destruct (get_item revision "revid") as [revid | e];
    [| reflexivity].
  unfold log. simpl. rewrite <- app_assoc. simpl.
  destruct (read_html env _); reflexivity.
Qed.

Lemma get_index_components_at_unknown env index when st :
  assoc index wikipedia_pages = None ->
  get_index_components_at env index when st = (st, Raise (KeyError index)).
Proof.
  intros H. unfold get_index_components_at. rewrite H. reflexivity.
Qed.

(** ** The endpoint's answer to the script's query *)

Lemma bound_ok_geb b t : bound_ok Z.geb (option_map JNum b) t = before b t.
Proof. destruct b; simpl; [apply Z.geb_leb | reflexivity]. Qed.

Lemma bound_ok_leb b t : bound_ok Z.leb (option_map JNum b) t = after b t.
Proof. destruct b; reflexivity. Qed.

Lemma mediawiki_answer wiki page rvstart rvend rvdir rvlimit :
  lookup_result (mediawiki wiki (query_params page rvstart rvend rvdir rvlimit [])) =
  if String.eqb rvdir "older" || String.eqb rvdir "newer" then
    match wiki !! page with
    | None => Raise (KeyError "revisions")
    | Some history =>
        match firstn (Z.to_nat rvlimit) (listing rvdir rvstart rvend history) with
        | [] => Raise (KeyError "revisions")
        | revs => Ok (JArr (map revision_json revs))
        end
    end
  else Raise (KeyError "query").
Proof.
  destruct (query_params_lookup page rvstart rvend rvdir rvlimit)
    as (Ht & Hd & Hl & Hs & He).
  unfold mediawiki. rewrite Ht, Hd, Hl, Hs, He.
  unfold listing, in_range.
  destruct (String.eqb rvdir "older") eqn:Eo; simpl.
  - destruct (wiki !! page) as [history |]; [| reflexivity].
    erewrite filter_ext
      by (intros r; rewrite bound_ok_geb, bound_ok_leb; reflexivity).
    destruct (firstn _ _); reflexivity.
  - destruct (String.eqb rvdir "newer") eqn:En; simpl; [| reflexivity].
    destruct (wiki !! page) as [history |]; [| reflexivity].
    erewrite filter_ext
      by (intros r; rewrite bound_ok_geb, bound_ok_leb; reflexivity).
    destruct (firstn _ _); reflexivity.
Qed.

Lemma filter_none {A} (f : A -> bool) (l : list A) :
  (forall x, In x l -> f x = false) -> List.filter f l = [].
Proof.
  induction l as [| x l IH]; simpl; intros H; [reflexivity |].
  rewrite (H x) by (left; reflexivity). apply IH. intros; apply H; right; assumption.
Qed.

Lemma mediawiki_nothing_in_range wiki page rvstart rvend rvdir rvlimit :
  rvdir = "older" \/ rvdir = "newer" ->
  (forall history r, wiki !! page = Some history -> In r history ->
     in_range rvdir rvstart rvend (timestamp r) = false) ->
  lookup_result
    (mediawiki wiki (query_params page rvstart rvend rvdir rvlimit [])) =
  Raise (KeyError "revisions").
Proof.
  intros Hdir Hnone. rewrite mediawiki_answer.
  replace (String.eqb rvdir "older" || String.eqb rvdir "newer") with true
    by (destruct Hdir as [-> | ->]; reflexivity).
  destruct (wiki !! page) as [history |] eqn:Hw; [| reflexivity].
  unfold listing. rewrite filter_none by (intros r Hr; eapply Hnone; eauto).
  simpl. destruct (Z.to_nat rvlimit); reflexivity.
Qed.

(** ** The order of the listing *)

Lemma older_first_spec a b :
  older_first a b = true <->
  timestamp a < timestamp b \/ (timestamp a = timestamp b /\ revid a <= revid b).
Proof.
  unfold older_first.
  rewrite orb_true_iff, andb_true_iff, Z.ltb_lt, Z.eqb_eq, Z.leb_le.
  reflexivity.
Qed.

Lemma older_first_total a b : older_first a b = true \/ older_first b a = true.
Proof. rewrite !older_first_spec. lia. Qed.

Lemma older_first_trans a b c :
  older_first a b = true -> older_first b c = true -> older_first a c = true.
Proof. rewrite !older_first_spec. lia. Qed.

Section SortedHead.
Context {A : Type} (leb : A -> A -> bool).
Hypothesis leb_total : forall a b, leb a b = true \/ leb b a = true.
Hypothesis leb_trans :
  forall a b c, leb a b = true -> leb b c = true -> leb a c = true.

Lemma insertion_sort_head x rest l :
  insertion_sort leb l = x :: rest ->
  In x l /\ forall y, In y l -> leb x y = true.
Proof.
  intros Hsort.
  assert (Hs : StronglySorted (le_of leb) (x :: rest)).
  { rewrite <- Hsort. apply Sorted_StronglySorted.
    - intros a b c. apply leb_trans.
    - apply insertion_sort_Sorted. intros; apply leb_total. }
  assert (Hin : forall y, In y l <-> In y (x :: rest))
    by (intros y; rewrite <- Hsort; symmetry; apply insertion_sort_In).
  split; [apply Hin; left; reflexivity |].
  intros y Hy. apply Hin in Hy as [<- | Hy].
  - destruct (leb_total x x); assumption.
  - inversion Hs as [| ? ? _ Hall]; subst.
    rewrite List.Forall_forall in Hall. apply Hall. exact Hy.
Qed.
End SortedHead.

Lemma firstn_one_head {A} (l revs : list A) :
  firstn 1 l = revs -> revs <> [] -> exists x rest, l = x :: rest /\ revs = [x].
Proof.
  destruct l as [| x rest]; simpl; intros <- H; [congruence | eauto].
Qed.

Lemma listing_first rvdir date history x rest :
  String.eqb rvdir "older" || String.eqb rvdir "newer" = true ->
  listing rvdir (Some date) None history = x :: rest ->
  nearest rvdir date history x.
Proof.
  intros Hdir Hlist. unfold listing in Hlist.
  destruct (String.eqb rvdir "older") eqn:Eo.
  - apply String.eqb_eq in Eo. subst rvdir.
    apply insertion_sort_head in Hlist as [Hin Hmax].
    + apply filter_In in Hin as [Hin Hr].
      unfold in_range, before, after in Hr. simpl in Hr.
      rewrite andb_true_r in Hr. apply Z.leb_le in Hr.
      split; [exact Hin |]. left. repeat split; [exact Hr |].
      intros r' Hr' Hle.
      assert (H : newer_first x r' = true).
      { apply Hmax. apply filter_In. split; [exact Hr' |].
        unfold in_range, before, after. simpl.
        rewrite andb_true_r. apply Z.leb_le. exact Hle. }
      unfold newer_first in H. apply older_first_spec in H. lia.
    + intros a b. unfold newer_first. apply older_first_total.
    + intros a b c H1 H2. unfold newer_first in *.
      eapply older_first_trans; eassumption.
  - simpl in Hdir. apply String.eqb_eq in Hdir. subst rvdir.
    apply insertion_sort_head in Hlist as [Hin Hmin].
    + apply filter_In in Hin as [Hin Hr].
      unfold in_range, before, after in Hr. simpl in Hr.
      rewrite andb_true_r in Hr. apply Z.leb_le in Hr.
      split; [exact Hin |]. right. repeat split; [exact Hr |].
      intros r' Hr' Hle.
      assert (H : older_first x r' = true).
      { apply Hmin. apply filter_In. split; [exact Hr' |].
        unfold in_range, before, after. simpl.
        rewrite andb_true_r. apply Z.leb_le. exact Hle. }
      apply older_first_spec in H. lia.
    + apply older_first_total.
    + apply older_first_trans.
Qed.

Lemma mediawiki_one_revision wiki page date rvdir revisions :
  lookup_result
    (mediawiki wiki (query_params page (Some date) None rvdir 1 [])) =
    Ok revisions ->
  exists history r,
    wiki !! page = Some history /\
    revisions = JArr [revision_json r] /\
    nearest rvdir date history r.
Proof.
  rewrite mediawiki_answer.
  destruct (_ || _) eqn:Hdir; [| discriminate].
  destruct (wiki !! page) as [history |]; [| discriminate].
  destruct (firstn _ _) as [| r revs] eqn:Hfirst; [discriminate |].
  intros [= <-].
  apply firstn_one_head in Hfirst as (x & rest & Hlist & Hrevs); [| discriminate].
  injection Hrevs as -> ->.
  exists history, x. repeat split; try reflexivity.
  - eapply listing_first; eassumption.
  - eapply listing_first; eassumption.
Qed.

(** ** Claims about the revision lookup *)

(** C4. When the page has no revision in the requested range, in
    particular when the date lies before the page's first revision and the
    direction is older, the lookup fails: the answer carries no
    "revisions" key and subscripting it raises. This [KeyError] is the
    script's not-found failure; nothing is returned in its place, neither
    by [get_revisions_metadata] nor by [get_index_components_at]. *)
Theorem no_revision_in_range_fails wiki page :
  (forall rvstart rvend rvdir rvlimit st,
     rvdir = "older" \/ rvdir = "newer" ->
     (forall history r, wiki !! page = Some history -> In r history ->
        in_range rvdir rvstart rvend (timestamp r) = false) ->
     snd (get_revisions_metadata (mediawiki wiki) page rvstart rvend rvdir
            rvlimit [] st) = Raise (KeyError "revisions")) /\
  (forall env index when st,
     session env = mediawiki wiki ->
     assoc index wikipedia_pages = Some page ->
     (forall history r, wiki !! page = Some history -> In r history ->
        when < timestamp r) ->
     snd (get_index_components_at env index (Some when) st) =
       Raise (KeyError "revisions")).
Proof.
  split.
  - intros rvstart rvend rvdir rvlimit st Hdir Hnone.
    rewrite get_revisions_metadata_run. simpl.
    apply mediawiki_nothing_in_range; assumption.
  - intros env index when st Hsession Hpage Hlate.
    rewrite (get_index_components_at_run env index page _ st Hpage). simpl.
    rewrite Hsession.
    rewrite (mediawiki_nothing_in_range wiki page (Some when) None "older" 1);
      [reflexivity | left; reflexivity |].
    intros history r Hw Hin. specialize (Hlate history r Hw Hin).
    unfold in_range, before. simpl. apply andb_false_intro1.
    apply Z.leb_gt. exact Hlate.
Qed.

Lemma spx_history_lookup : sample_wiki !! spx_page = Some spx_history.
Proof. reflexivity. Qed.

Lemma no_revision_in_range_fails_witness :
  snd (get_revisions_metadata (mediawiki sample_wiki) spx_page
         (Some 1427846400) (Some 1433116800) "newer" 1 [] empty_state) =
    Raise (KeyError "revisions") /\
  snd (get_index_components_at
         {| session := mediawiki sample_wiki;
            read_html := fun _ => Raise HTTPError;
            date_range := fun _ _ _ => Ok [];
            datetime_today := 0;
            date_today := 0 |}
         "SPX" (Some 1388534400) empty_state) =
    Raise (KeyError "revisions").
Proof.
  destruct (no_revision_in_range_fails sample_wiki spx_page) as [Hlookup Hat].
  split.
  - apply Hlookup; [right; reflexivity |].
    intros history r Hw Hin. rewrite spx_history_lookup in Hw.
    injection Hw as <-.
    simpl in Hin. destruct Hin as [<- | [<- | [<- | []]]]; reflexivity.
  - apply Hat; [reflexivity | reflexivity |].
    intros history r Hw Hin. rewrite spx_history_lookup in Hw.
    injection Hw as <-.
    simpl in Hin. destruct Hin as [<- | [<- | [<- | []]]]; simpl; lia.
Defined.

(** C5. The revision a lookup with [rvlimit = 1] returns lies on the
    requested side of the date: at or before it with direction older, at
    or after it with direction newer, and it is the nearest one there.
    The revision whose tables [get_index_components_at] reads is the one
    returned for direction older. *)
Theorem returned_revision_on_requested_side wiki page date :
  (forall rvdir st st' revisions,
     get_revisions_metadata (mediawiki wiki) page (Some date) None rvdir 1 []
       st = (st', Ok revisions) ->
     exists history r,
       wiki !! page = Some history /\
       revisions = JArr [revision_json r] /\
       nearest rvdir date history r) /\
  (forall env index st st' df,
     session env = mediawiki wiki ->
     assoc index wikipedia_pages = Some page ->
     get_index_components_at env index (Some date) st = (st', Ok df) ->
     exists history r tables,
       wiki !! page = Some history /\
       nearest "older" date history r /\
       In (ReadHtml (page_url page (JNum (revid r))))
          (trace st') /\
       read_html env (page_url page (JNum (revid r))) =
         Ok tables /\
       components_of_tables tables = Ok df).
Proof.
  split.
  - intros rvdir st st' revisions Hrun.
    rewrite get_revisions_metadata_run in Hrun. simpl in Hrun.
    injection Hrun as _ Hres.
    apply mediawiki_one_revision. exact Hres.
  - intros env index st st' df Hsession Hpage Hrun.
    rewrite (get_index_components_at_run env index page _ st Hpage) in Hrun.
    cbv zeta in Hrun. unfold when_or_today in Hrun. rewrite Hsession in Hrun.
    injection Hrun as Hst Hres.
    destruct (lookup_result _) as [revisions | e] eqn:Hlookup;
      [| discriminate].
    apply mediawiki_one_revision in Hlookup as (history & r & Hw & -> & Hnear).
    set (url := (page_url page (JNum (revid r)))).
    assert (Hev : fetch_events page (Ok (JArr [revision_json r])) =
                  [ Stdout [PText "Got results from "; PJson (JNum (timestamp r))];
                    ReadHtml url ]) by reflexivity.
    assert (Hfr : fetch_result env page (Ok (JArr [revision_json r])) =
                  match read_html env url with
                  | Raise e => Raise e
                  | Ok table => components_of_tables table
                  end) by reflexivity.
    rewrite Hfr in Hres. rewrite Hev in Hst.
    destruct (read_html env url) as [tables | e] eqn:Hread; [| discriminate].
    exists history, r, tables.
    split; [exact Hw |]. split; [exact Hnear |].
    split; [| split; assumption].
    rewrite <- Hst, trace_log.
    apply in_or_app. right. do 3 apply in_cons.
    apply in_or_app. right. right. left. reflexivity.
Qed.

Lemma returned_revision_on_requested_side_witness :
  exists history r,
    sample_wiki !! spx_page = Some history /\
    JArr [ JObj [ ("revid", JNum 651482045); ("parentid", JNum 638904497);
                  ("user", JStr "B"); ("timestamp", JNum 1426377600);
                  ("comment", JStr "index change") ] ] =
      JArr [revision_json r] /\
    nearest "older" 1427846400 history r.
Proof.
  eapply (proj1 (returned_revision_on_requested_side sample_wiki spx_page
                   1427846400) "older" empty_state).
  vm_compute. reflexivity.
Defined.

(** ** The history loop *)

Lemma dict_set_fresh {V} k (v : V) d :
  ~ In k (map fst d) -> dict_set k v d = (d ++ [(k, v)])%list.
Proof.
  induction d as [| [k' v'] d IH]; simpl; intros Hk; [reflexivity |].
  destruct (String.eqb k' k) eqn:E.
  - apply String.eqb_eq in E. tauto.
  - rewrite IH by tauto. reflexivity.
Qed.

Lemma for_each_app {A B} (body : A -> B -> M B) xs ys acc st :
  for_each body (xs ++ ys) acc st =
  match for_each body xs acc st with
  | (st', Ok acc') => for_each body ys acc' st'
  | (st', Raise e) => (st', Raise e)
  end.
Proof.
  revert acc st. induction xs as [| x xs IH]; intros acc st; simpl.
  - reflexivity.
  - unfold bind. destruct (body x acc st) as [st1 [acc1 | e]]; [apply IH | reflexivity].
Qed.

Lemma history_loop_assemble env index dates acc st :
  List.NoDup (map timestamp_str dates) ->
  (forall d, In d dates -> ~ In (timestamp_str d) (map fst acc)) ->
  for_each (record_components env index) dates acc st =
  match assemble env index dates st with
  | (st', Ok rest) => (st', Ok (acc ++ rest)%list)
  | (st', Raise e) => (st', Raise e)
  end.
Proof.
  revert acc st. induction dates as [| d dates IH]; intros acc st Hnodup Hfresh.
  - simpl. unfold ret. rewrite app_nil_r. reflexivity.
  - simpl in Hnodup. apply List.NoDup_cons_iff in Hnodup as [Hd Hnodup].
    simpl. unfold record_components, bind, ret.
    destruct (get_index_components_at env index (Some d) st) as [st1 [df | e]];
      [| reflexivity].
    rewrite dict_set_fresh by (apply Hfresh; left; reflexivity).
    rewrite IH; [| exact Hnodup |].
    + destruct (assemble env index dates st1) as [st2 [rest | e]];
        [| reflexivity].
      rewrite <- app_assoc. reflexivity.
    + intros d' Hd'. rewrite map_app, in_app_iff. simpl.
      intros [H | [H | []]].
      * apply (Hfresh d'); [right; exact Hd' | exact H].
      * apply Hd. rewrite H. apply in_map. exact Hd'.
Qed.

Lemma assemble_keys env index dates st st' hc :
  assemble env index dates st = (st', Ok hc) ->
  map fst hc = map timestamp_str dates.
Proof.
  revert st st' hc. induction dates as [| d dates IH]; intros st st' hc; simpl.
  - unfold ret. intros [= _ <-]. reflexivity.
  - unfold bind, ret.
    destruct (get_index_components_at env index (Some d) st) as [st1 [df | e]];
      [| discriminate].
    destruct (assemble env index dates st1) as [st2 [rest | e]] eqn:Hrest;
      [| discriminate].
    intros [= _ <-]. simpl. f_equal. eapply IH. exact Hrest.
Qed.

Lemma get_index_components_history_run env index start_date end_date freq dates st :
  date_range env start_date (end_or_today env end_date) freq = Ok dates ->
  get_index_components_history env index start_date end_date freq st =
  for_each (record_components env index) dates [] st.
Proof.
  intros Hdates. unfold get_index_components_history, bind, lift.
  fold (end_or_today env end_date). rewrite Hdates. reflexivity.
Qed.

(** ** Counting requests *)

Lemma lookup_events_requests qp answer :
  api_gets (lookup_events qp answer) = 1%nat /\
  page_reads (lookup_events qp answer) = 0%nat.
Proof.
  unfold api_gets, page_reads, lookup_events.
  destruct answer as [data | e]; simpl; [| auto].
  destruct (response_revisions data); simpl; auto.
Qed.

Lemma fetch_events_requests page revisions :
  api_gets (fetch_events page revisions) = 0%nat /\
  (page_reads (fetch_events page revisions) <= 1)%nat.
Proof.
  unfold api_gets, page_reads, fetch_events.
  destruct revisions as [revisions | e]; simpl; [| auto].
  destruct (get_first revisions) as [revision | e]; simpl; [| auto].
  destruct (get_item revision "timestamp"); simpl; [| auto].
  destruct (get_item revision "revid"); simpl; auto.
Qed.

Lemma get_index_components_at_requests env index when st st' r :
  get_index_components_at env index when st = (st', r) ->
  (api_gets (trace st') <= api_gets (trace st) + 1)%nat /\
  (page_reads (trace st') <= page_reads (trace st) + 1)%nat.
Proof.
  destruct (assoc index wikipedia_pages) as [page |] eqn:Hpage.
  - rewrite (get_index_components_at_run env index page when st Hpage).
    cbv zeta. intros H. apply pair_equal_spec in H as [<- _].
    rewrite trace_log.
    unfold api_gets, page_reads. rewrite !List.filter_app, !length_app.
    fold (api_gets (trace st)) (page_reads (trace st)).
    match goal with
    | |- context [lookup_events ?qp ?a] =>
        destruct (lookup_events_requests qp a) as [H1 H2];
        destruct (fetch_events_requests page (lookup_result a)) as [H3 H4]
    end.
    unfold api_gets, page_reads in H1, H2, H3, H4.
    rewrite H1, H2, H3. lia.
  - rewrite (get_index_components_at_unknown env index when st Hpage).
    intros H. apply pair_equal_spec in H as [<- _]. lia.
Qed.

(** A successful call ends on the page read whose tables it returns. *)
Lemma get_index_components_at_ok env index when st st' df :
  get_index_components_at env index when st = (st', Ok df) ->
  exists url tables,
    last (trace st') = Some (ReadHtml url) /\
    read_html env url = Ok tables /\
    components_of_tables tables = Ok df.
Proof.
  destruct (assoc index wikipedia_pages) as [page |] eqn:Hpage.
  - rewrite (get_index_components_at_run env index page when st Hpage).
    cbv zeta. intros H. apply pair_equal_spec in H as [<- Hres].
    rewrite trace_log.
    unfold fetch_result in Hres. unfold fetch_events.
    destruct (lookup_result _) as [revisions | e]; [| discriminate].
    destruct (get_first revisions) as [revision | e]; [| discriminate].
    destruct (get_item revision "timestamp") as [ts | e]; [| discriminate].
    destruct (get_item revision "revid") as [revid | e]; [| discriminate].
    destruct (read_html env _) as [tables | e] eqn:Hread; [| discriminate].
    eexists _, tables. split; [| split; [exact Hread | exact Hres]].
    rewrite !app_assoc.
    change (?l ++ [?a; ?b])%list with (l ++ [a] ++ [b])%list.
    rewrite app_assoc. apply last_snoc.
  - rewrite (get_index_components_at_unknown env index when st Hpage).
    discriminate.
Qed.

(** ** Claims about the history *)

(** C6. The history visits the generated sample dates in order; for each
    it queries the revisions in direction older from that date with limit
    one, reads the page at the revision returned and extracts its table;
    the symbol list is recorded under the date, and the keys of the
    resulting mapping stand in date-generation order. *)
Theorem history_visits_dates_in_order env index start_date end_date freq dates :
  date_range env start_date (end_or_today env end_date) freq = Ok dates ->
  List.NoDup (map timestamp_str dates) ->
  (forall st,
     get_index_components_history env index start_date end_date freq st =
     assemble env index dates st) /\
  (forall st st' hc,
     get_index_components_history env index start_date end_date freq st =
       (st', Ok hc) ->
     map fst hc = map timestamp_str dates) /\
  (forall page date st,
     assoc index wikipedia_pages = Some page ->
     let qp := query_params page (Some date) None "older" 1 [] in
     let revisions := lookup_result (session env qp) in
     qp !! "rvdir" = Some (JStr "older") /\
     qp !! "rvstart" = Some (JNum date) /\
     qp !! "rvlimit" = Some (JNum 1) /\
     get_index_components_at env index (Some date) st =
       (log (lookup_events qp (session env qp) ++ fetch_events page revisions) st,
        fetch_result env page revisions)).
Proof.
  intros Hdates Hnodup.
  assert (Hrun : forall st,
            get_index_components_history env index start_date end_date freq st =
            assemble env index dates st).
  { intros st.
    rewrite (get_index_components_history_run env index start_date end_date
               freq dates st Hdates).
    rewrite history_loop_assemble; [| exact Hnodup | intros d _ []].
    destruct (assemble env index dates st) as [st' [rest | e]]; reflexivity. }
  split; [exact Hrun |]. split.
  - intros st st' hc H. rewrite Hrun in H. eapply assemble_keys. exact H.
  - intros page date st Hpage qp revisions.
    destruct (query_params_lookup page (Some date) None "older" 1)
      as (_ & Hd & Hl & Hs & _).
    repeat split; try assumption.
    apply (get_index_components_at_run env index page (Some date) st Hpage).
Qed.

Lemma history_visits_dates_in_order_witness :
  get_index_components_history sample_env "SPX" (Some 1420070400)
    (Some 1430000000) "QS" empty_state =
  assemble sample_env "SPX" [1420070400; 1427846400] empty_state /\
  snd (get_index_components_history sample_env "SPX" (Some 1420070400)
         (Some 1430000000) "QS" empty_state) =
  Ok [ ("2015-01-01 00:00:00", [VStr "AAPL"; VStr "GOOG"; VStr "MSFT"]);
       ("2015-04-01 00:00:00", [VStr "AAPL"; VStr "GOOG"; VStr "GOOG"; VNaN]) ].
Proof.
  split.
  - apply (history_visits_dates_in_order sample_env "SPX" (Some 1420070400)
             (Some 1430000000) "QS" [1420070400; 1427846400]).
    + reflexivity.
    + vm_compute. repeat constructor; simpl; intuition discriminate.
  - vm_compute. reflexivity.
Defined.

(** C7. When the call for one sample date raises, the history stops there
    with that exception: the mapping built from the earlier dates is not
    returned, the later dates are not visited, and the failing date was
    asked for once, with at most one API query and one page read. *)
Theorem history_aborts_on_first_error
    env index start_date end_date freq pre date post st st1 hc st2 e :
  date_range env start_date (end_or_today env end_date) freq =
    Ok (pre ++ date :: post)%list ->
  for_each (record_components env index) pre [] st = (st1, Ok hc) ->
  get_index_components_at env index (Some date) st1 = (st2, Raise e) ->
  get_index_components_history env index start_date end_date freq st =
    (st2, Raise e) /\
  (api_gets (trace st2) <= api_gets (trace st1) + 1)%nat /\
  (page_reads (trace st2) <= page_reads (trace st1) + 1)%nat.
Proof.
  intros Hdates Hpre Hfail. split.
  - rewrite (get_index_components_history_run env index start_date end_date
               freq _ st Hdates).
    rewrite for_each_app, Hpre. simpl.
    unfold record_components, bind. rewrite Hfail. reflexivity.
  - eapply get_index_components_at_requests. exact Hfail.
Qed.

Lemma history_aborts_on_first_error_witness :
  snd (get_index_components_history sample_env "SPX" (Some 1420070400) None
         "QS" empty_state) = Raise ValueError.
Proof.
  pose proof (history_aborts_on_first_error sample_env "SPX" (Some 1420070400)
                None "QS" [1420070400; 1427846400] 1435708800 [] empty_state) as H.
  edestruct H as [Hrun _].
  - reflexivity.
  - vm_compute. reflexivity.
  - vm_compute. reflexivity.
  - rewrite Hrun. reflexivity.
Defined.

(** ** Writing the snapshots *)

Lemma join_strings sep symbols :
  join sep (map VStr symbols) = Ok (String.concat sep symbols).
Proof.
  induction symbols as [| s symbols IH]; [reflexivity |].
  destruct symbols as [| s' symbols]; [reflexivity |].
  change (map VStr (s :: s' :: symbols))
    with (VStr s :: map VStr (s' :: symbols)).
  simpl in IH |- *. rewrite IH. reflexivity.
Qed.

Lemma forallb_is_str_map symbols : forallb is_str (map VStr symbols) = true.
Proof. induction symbols; simpl; auto. Qed.

Lemma all_str_texts items :
  forallb is_str items = true -> items = map VStr (texts items).
Proof.
  induction items as [| v items IH]; simpl; [reflexivity |].
  destruct v; simpl; try discriminate.
  intros H. f_equal. apply IH. exact H.
Qed.


(** One pass of the loop body, case by case. *)
Lemma write_components_outcome index date components_list st :
  write_components index (date, components_list) st =
  if forallb is_str components_list then
    match split date with
    | [] => (st, Raise IndexError)
    | formatted_date :: _ =>
        match open_error st (csv_path index formatted_date) with
        | Some e => (st, Raise e)
        | None =>
            (set_files
               (<[csv_path index formatted_date :=
                    String.concat "," (texts components_list)]> (fs_files st))
               st, Ok tt)
        end
    end
  else (log [skip_warning date] st, Ok tt).
Proof.
  unfold write_components.
  destruct (forallb is_str components_list) eqn:Hall; [| reflexivity].
  destruct (split date) as [| formatted_date rest]; [reflexivity |].
  unfold bind, lift, open_w.
  destruct (open_error st (csv_path index formatted_date)); [reflexivity |].
  rewrite (all_str_texts components_list Hall) at 1. rewrite join_strings.
  unfold f_write, set_files. cbn [fs_files trace fs_dirs fs_denied].
  rewrite lookup_insert_eq, insert_insert_eq. reflexivity.
Qed.

Lemma components_to_separate_csv_step pre item post index st st1 :
  components_to_separate_csv pre index st = (st1, Ok tt) ->
  components_to_separate_csv (pre ++ item :: post) index st =
  match write_components index item st1 with
  | (st2, Ok _) => components_to_separate_csv post index st2
  | (st2, Raise e) => (st2, Raise e)
  end.
Proof.
  unfold components_to_separate_csv. intros Hpre.
  rewrite for_each_app, Hpre. simpl. unfold bind.
  destruct (write_components index item st1) as [st2 [[] | e]]; reflexivity.
Qed.

(** ** Claims about the snapshot writer *)




(** C10, as stated, fails: a pair with an empty list is not skipped, but
    it is not always written either. With the directory missing, or with
    a key in which there is no word, the function raises. *)
Lemma empty_list_can_fail :
  components_to_separate_csv [ ("2015-07-01 00:00:00", []) ] "S400" sample_fs =
    (sample_fs, Raise (FileNotFoundError "S400/S400_2015-07-01.csv")) /\
  components_to_separate_csv [ (" ", []) ] "SPX" sample_fs =
    (sample_fs, Raise IndexError).
Proof. split; reflexivity. Qed.

(** C10, amended. A pair whose symbol list is empty passes the
    all-strings test and is never skipped: whatever happens, no warning
    is printed for it. It takes the path of a pair of strings: when its
    key has a first word and the file can be opened for writing, the file
    is created, or replaced, with nothing in it, and the run goes on. *)
Theorem empty_list_writes_empty_file index pre date post st st1 :
  components_to_separate_csv pre index st = (st1, Ok tt) ->
  trace (fst (components_to_separate_csv (pre ++ [(date, [])]) index st)) =
    trace st1 /\
  (forall formatted_date rest,
     split date = formatted_date :: rest ->
     open_error st1 (csv_path index formatted_date) = None ->
     exists st2,
       components_to_separate_csv (pre ++ [(date, [])]) index st =
         (st2, Ok tt) /\
       fs_files st2 = <[csv_path index formatted_date := ""]> (fs_files st1) /\
       fs_dirs st2 = fs_dirs st1 /\
       fs_denied st2 = fs_denied st1 /\
       components_to_separate_csv (pre ++ (date, []) :: post) index st =
       components_to_separate_csv post index st2).
Proof.
  intros Hpre.
  pose proof (write_components_outcome index date [] st1) as Hbody.
  cbn [forallb texts flat_map String.concat] in Hbody.
  rewrite !(components_to_separate_csv_step pre _ _ index st st1 Hpre), Hbody.
  split.
  - destruct (split date) as [| formatted_date rest]; [reflexivity |].
    destruct (open_error st1 (csv_path index formatted_date)); reflexivity.
  - intros formatted_date rest Hsplit Hopen. rewrite Hsplit, Hopen.
    eexists. repeat split.
Qed.

Lemma empty_list_writes_empty_file_witness :
  exists st2,
    components_to_separate_csv ([] ++ [("2015-07-01 00:00:00", [])]) "SPX"
      sample_fs = (st2, Ok tt) /\
    fs_files st2 = <["SPX/SPX_2015-07-01.csv" := ""]> (fs_files sample_fs) /\
    fs_dirs st2 = fs_dirs sample_fs /\
    fs_denied st2 = fs_denied sample_fs /\
    components_to_separate_csv
      ([] ++ ("2015-07-01 00:00:00", []) ::
             [("2015-10-01 00:00:00", [VStr "AAPL"])]) "SPX" sample_fs =
    components_to_separate_csv [("2015-10-01 00:00:00", [VStr "AAPL"])]
      "SPX" st2.
Proof.
  apply (proj2 (empty_list_writes_empty_file "SPX" [] "2015-07-01 00:00:00"
                  [("2015-10-01 00:00:00", [VStr "AAPL"])] sample_fs sample_fs
                  eq_refl)
           "2015-07-01" ["00:00:00"]); reflexivity.
Defined.

(** * Further properties *)

(** ** Query parameters *)

Lemma assoc_app {V} k (a b : list (string * V)) :
  assoc k (a ++ b) =
  match assoc k a with Some v => Some v | None => assoc k b end.
Proof.
  induction a as [| [k' v'] a IH]; simpl; [reflexivity |].
  destruct (String.eqb k' k); [reflexivity | exact IH].
Qed.

Lemma fold_insert_lookup {V} (l : list (string * V)) (m : gmap string V) k :
  fold_left (fun qp kv => <[fst kv := snd kv]> qp) l m !! k =
  match assoc k (rev l) with Some v => Some v | None => m !! k end.
Proof.
  revert m. induction l as [| [k' v'] l IH]; intros m; simpl; [reflexivity |].
  rewrite IH, assoc_app. destruct (assoc k (rev l)); [reflexivity |].
  simpl. rewrite lookup_insert.
  destruct (String.eqb_spec k' k); case_decide; congruence.
Qed.

Lemma assoc_not_In {V} k (l : list (string * V)) :
  ~ In k (map fst l) -> assoc k l = None.
Proof.
  induction l as [| [k' v'] l IH]; simpl; [reflexivity |].
  intros H. destruct (String.eqb_spec k' k) as [-> | _]; [tauto | auto].
Qed.

Lemma assoc_NoDup_In {V} k (v : V) l :
  List.NoDup (map fst l) -> In (k, v) l -> assoc k l = Some v.
Proof.
  induction l as [| [k' v'] l IH]; simpl; [intros _ [] |].
  rewrite List.NoDup_cons_iff. intros [Hfresh Hnodup] [[= -> ->] | Hin].
  - rewrite String.eqb_refl. reflexivity.
  - destruct (String.eqb_spec k' k) as [-> | _]; [| auto].
    exfalso. apply Hfresh. apply (in_map fst) in Hin. exact Hin.
Qed.

Lemma built_in_lookup page rvstart rvend rvdir rvlimit k :
  query_params page rvstart rvend rvdir rvlimit [] !! k =
  assoc k (built_in_parameters page rvstart rvend rvdir rvlimit).
Proof.
  unfold query_params, built_in_parameters. cbn [fold_left].
  destruct rvstart, rvend; cbn [app assoc];
    repeat match goal with
           | |- context [<[?a := _]> _ !! k] =>
               rewrite lookup_insert; case_decide;
               [subst k; reflexivity |
                destruct (String.eqb_spec a k); [congruence |]]
           end;
    apply lookup_empty.
Qed.

(** X1. The extra keyword parameters a caller can pass (distinct names,
    none of them the name of a parameter of the function) are all part of
    the query, each with the value given; they replace the built-in
    parameters of the same name, and the parameters not named keep their
    built-in value. The direction, the limit and the bounds of the range
    are therefore always the ones passed as arguments. *)
Theorem extra_parameters_override
    page rvstart rvend rvdir rvlimit kwargs :
  bindable kwargs ->
  let qp := query_params page rvstart rvend rvdir rvlimit kwargs in
  (forall k v, In (k, v) kwargs -> qp !! k = Some v) /\
  (forall k,
     ~ In k (map fst kwargs) ->
     qp !! k = assoc k (built_in_parameters page rvstart rvend rvdir rvlimit)) /\
  qp !! "rvdir" = Some (JStr rvdir) /\
  qp !! "rvlimit" = Some (JNum rvlimit) /\
  qp !! "rvstart" = option_map isoformat rvstart /\
  qp !! "rvend" = option_map isoformat rvend.
Proof.
  intros [Hnodup Hnames] qp.
  assert (Hin : forall k v, In (k, v) kwargs -> qp !! k = Some v).
  { intros k v Hkv. unfold qp, query_params. rewrite fold_insert_lookup.
    rewrite (assoc_NoDup_In k v (rev kwargs)); [reflexivity | |].
    - rewrite map_rev. apply NoDup_rev. exact Hnodup.
    - apply in_rev in Hkv. exact Hkv. }
  assert (Hout : forall k,
            ~ In k (map fst kwargs) ->
            qp !! k =
            assoc k (built_in_parameters page rvstart rvend rvdir rvlimit)).
  { intros k Hk. unfold qp, query_params. rewrite fold_insert_lookup.
    rewrite assoc_not_In.
    - apply (built_in_lookup page rvstart rvend rvdir rvlimit k).
    - rewrite map_rev, <- in_rev. exact Hk. }
  assert (Hown : forall k, In k parameter_names -> ~ In k (map fst kwargs)).
  { intros k Hk Hin'. exact (Hnames k Hin' Hk). }
  split; [exact Hin |]. split; [exact Hout |].
  repeat split.
  - rewrite Hout by (apply Hown; simpl; tauto).
    unfold built_in_parameters. destruct rvstart, rvend; reflexivity.
  - rewrite Hout by (apply Hown; simpl; tauto).
    unfold built_in_parameters. destruct rvstart, rvend; reflexivity.
  - rewrite Hout by (apply Hown; simpl; tauto).
    unfold built_in_parameters. destruct rvstart, rvend; reflexivity.
  - rewrite Hout by (apply Hown; simpl; tauto).
    unfold built_in_parameters. destruct rvstart, rvend; reflexivity.
Qed.

Lemma extra_parameters_override_witness :
  let qp :=
    query_params "List of S&P 500 companies" (Some 1420070400) None "older" 1
      sample_kwargs in
  qp !! "rvprop" = Some (JStr "ids") /\
  qp !! "rvuser" = Some (JStr "Example") /\
  qp !! "titles" = Some (JStr "List of S&P 500 companies") /\
  qp !! "rvdir" = Some (JStr "older") /\
  qp !! "rvstart" = Some (JNum 1420070400) /\
  qp !! "rvend" = None.
Proof.
  assert (Hbindable : bindable sample_kwargs).
  { split.
    - repeat constructor; simpl; intros H;
        repeat (destruct H as [H | H]; [discriminate |]); exact H.
    - intros k Hk Hname. simpl in Hk, Hname.
      repeat (destruct Hk as [<- | Hk];
              [repeat (destruct Hname as [Hname | Hname]; [discriminate |]);
               exact Hname |]).
      exact Hk. }
  destruct (extra_parameters_override "List of S&P 500 companies"
              (Some 1420070400) None "older" 1 sample_kwargs Hbindable)
    as (Hin & Hout & Hdir & _ & Hstart & Hend).
  intros qp. split; [| split; [| split; [| split; [| split]]]].
  - apply Hin. simpl. tauto.
  - apply Hin. simpl. tauto.
  - unfold qp. rewrite Hout; [reflexivity |].
    simpl. intros H. repeat (destruct H as [H | H]; [discriminate |]). exact H.
  - exact Hdir.
  - exact Hstart.
  - exact Hend.
Defined.

(** ** Answers the lookup cannot use *)

(** X2. What the session raises, the lookup raises. An answer without
    "query" (an API error), a query without "pages", an empty page list,
    a page without "revisions": each surfaces as the [KeyError] or
    [IndexError] of the failing subscript, and an answer that is no
    object as [TypeError]. *)
Theorem lookup_fails_on_unusable_answer
    S page rvstart rvend rvdir rvlimit kwargs st :
  let qp := query_params page rvstart rvend rvdir rvlimit kwargs in
  let outcome :=
    snd (get_revisions_metadata S page rvstart rvend rvdir rvlimit kwargs st) in
  (forall e, S qp = Raise e -> outcome = Raise e) /\
  (forall fields,
     S qp = Ok (JObj fields) -> assoc "query" fields = None ->
     outcome = Raise (KeyError "query")) /\
  (forall fields qfields,
     S qp = Ok (JObj fields) ->
     assoc "query" fields = Some (JObj qfields) ->
     assoc "pages" qfields = None ->
     outcome = Raise (KeyError "pages")) /\
  (forall fields qfields,
     S qp = Ok (JObj fields) ->
     assoc "query" fields = Some (JObj qfields) ->
     assoc "pages" qfields = Some (JArr []) ->
     outcome = Raise IndexError) /\
  (forall fields qfields pfields rest,
     S qp = Ok (JObj fields) ->
     assoc "query" fields = Some (JObj qfields) ->
     assoc "pages" qfields = Some (JArr (JObj pfields :: rest)) ->
     assoc "revisions" pfields = None ->
     outcome = Raise (KeyError "revisions")) /\
  (forall data,
     S qp = Ok data -> (forall fields, data <> JObj fields) ->
     outcome = Raise TypeError).
Proof.
  intros qp outcome. unfold outcome.
  rewrite get_revisions_metadata_run. cbv zeta. cbn [snd]. fold qp.
  repeat split.
  - intros e ->. reflexivity.
  - intros fields -> Hq. unfold lookup_result, response_revisions. simpl.
    rewrite Hq. reflexivity.
  - intros fields qfields -> Hq Hp.
    unfold lookup_result, response_revisions. simpl.
    rewrite Hq. simpl. rewrite Hp. reflexivity.
  - intros fields qfields -> Hq Hp.
    unfold lookup_result, response_revisions. simpl.
    rewrite Hq. simpl. rewrite Hp. reflexivity.
  - intros fields qfields pfields rest -> Hq Hp Hr.
    unfold lookup_result, response_revisions. simpl.
    rewrite Hq. simpl. rewrite Hp. simpl. rewrite Hr. reflexivity.
  - intros data -> Hobj. unfold lookup_result, response_revisions.
    destruct data; try reflexivity. exfalso. eapply Hobj. reflexivity.
Qed.

Lemma lookup_fails_on_unusable_answer_witness :
  snd (get_revisions_metadata (mediawiki sample_wiki) spx_page
         (Some 1427846400) None "sideways" 1 [] empty_state) =
  Raise (KeyError "query").
Proof.
  destruct (lookup_fails_on_unusable_answer (mediawiki sample_wiki) spx_page
              (Some 1427846400) None "sideways" 1 [] empty_state)
    as (_ & Hquery & _).
  apply (Hquery [ ("error", JObj [ ("code", JStr "badvalue") ]) ]);
    reflexivity.
Defined.

(** X3. Whatever its outcome, a lookup sends exactly one API request,
    reads no page, only appends to the output, and leaves the files and
    directories alone. *)
Theorem lookup_sends_one_request
    S page rvstart rvend rvdir rvlimit kwargs st :
  let st' :=
    fst (get_revisions_metadata S page rvstart rvend rvdir rvlimit kwargs st) in
  api_gets (trace st') = (api_gets (trace st) + 1)%nat /\
  page_reads (trace st') = page_reads (trace st) /\
  (exists events, trace st' = (trace st ++ events)%list) /\
  fs_files st' = fs_files st /\
  fs_dirs st' = fs_dirs st.
Proof.
  intros st'. unfold st'. rewrite get_revisions_metadata_run. cbv zeta.
  cbn [fst]. rewrite trace_log.
  match goal with
  | |- context [lookup_events ?qp ?a] =>
      destruct (lookup_events_requests qp a) as [H1 H2]
  end.
  unfold api_gets, page_reads in *.
  rewrite !List.filter_app, !length_app, H1, H2.
  repeat split; try lia. eexists. reflexivity.
Qed.

(** ** Requests and the file system during a history *)

Lemma fetch_ok_reads env page revisions df :
  fetch_result env page revisions = Ok df ->
  page_reads (fetch_events page revisions) = 1%nat.
Proof.
  unfold fetch_result, fetch_events, page_reads.
  destruct revisions as [revisions | e]; [| discriminate].
  destruct (get_first revisions) as [revision | e]; [| discriminate].
  destruct (get_item revision "timestamp") as [ts | e]; [| discriminate].
  destruct (get_item revision "revid") as [revid | e]; [| discriminate].
  reflexivity.
Qed.

Lemma get_index_components_at_frame env index when st st' r :
  get_index_components_at env index when st = (st', r) ->
  fs_files st' = fs_files st /\ fs_dirs st' = fs_dirs st /\
  exists a p,
    api_gets (trace st') = (api_gets (trace st) + a)%nat /\
    page_reads (trace st') = (page_reads (trace st) + p)%nat /\
    (p <= a <= 1)%nat /\
    (forall df, r = Ok df -> a = 1%nat /\ p = 1%nat).
Proof.
  destruct (assoc index wikipedia_pages) as [page |] eqn:Hpage.
  - rewrite (get_index_components_at_run env index page when st Hpage).
    cbv zeta. intros H. apply pair_equal_spec in H as [<- Hr].
    split; [reflexivity |]. split; [reflexivity |].
    rewrite trace_log. unfold api_gets, page_reads.
    rewrite !List.filter_app, !length_app.
    match goal with
    | |- context [lookup_events ?qp ?a] =>
        destruct (lookup_events_requests qp a) as [H1 H2];
        destruct (fetch_events_requests page (lookup_result a)) as [H3 H4];
        pose proof (fetch_ok_reads env page (lookup_result a)) as H5
    end.
    unfold api_gets, page_reads in H1, H2, H3, H4, H5.
    rewrite H1, H2, H3. eexists _, _.
    split; [rewrite Nat.add_0_r; reflexivity |].
    split; [rewrite Nat.add_0_l; reflexivity |].
    split; [lia |].
    intros df ->. split; [reflexivity |]. eapply H5. exact Hr.
  - rewrite (get_index_components_at_unknown env index when st Hpage).
    intros H. apply pair_equal_spec in H as [<- <-].
    split; [reflexivity |]. split; [reflexivity |].
    exists 0%nat, 0%nat.
    split; [lia |]. split; [lia |]. split; [lia |]. discriminate.
Qed.

Lemma history_loop_frame env index dates acc st st' r :
  for_each (record_components env index) dates acc st = (st', r) ->
  fs_files st' = fs_files st /\ fs_dirs st' = fs_dirs st /\
  exists a p,
    api_gets (trace st') = (api_gets (trace st) + a)%nat /\
    page_reads (trace st') = (page_reads (trace st) + p)%nat /\
    (p <= a <= length dates)%nat /\
    (forall hc, r = Ok hc -> a = length dates /\ p = length dates).
Proof.
  revert acc st. induction dates as [| d dates IH]; intros acc st; simpl.
  - unfold ret. intros H. apply pair_equal_spec in H as [<- <-].
    split; [reflexivity |]. split; [reflexivity |].
    exists 0%nat, 0%nat.
    split; [lia |]. split; [lia |]. split; [lia |]. intros; lia.
  - unfold record_components, bind, ret.
    destruct (get_index_components_at env index (Some d) st)
      as [st1 [df | e]] eqn:Hat;
      apply get_index_components_at_frame in Hat
        as (Hf & Hd & a & p & Ha & Hp & Hle & Hok).
    + intros Hrest. apply IH in Hrest
        as (Hf' & Hd' & a' & p' & Ha' & Hp' & Hle' & Hok').
      destruct (Hok df eq_refl) as [-> ->].
      split; [congruence |]. split; [congruence |].
      exists (1 + a')%nat, (1 + p')%nat.
      split; [lia |]. split; [lia |]. split; [lia |].
      intros hc Hr. destruct (Hok' hc Hr). lia.
    + intros H. apply pair_equal_spec in H as [<- <-].
      split; [exact Hf |]. split; [exact Hd |].
      exists a, p.
      split; [lia |]. split; [lia |]. split; [lia |]. discriminate.
Qed.

(** X4. A history never touches the files or directories. However it
    ends, it has sent at most one API request per sample date and read a
    page only after a request; when it succeeds it has sent exactly one
    request and read exactly one page per date, also for dates that
    resolve to the same revision. *)
Theorem history_requests_per_date
    env index start_date end_date freq dates st :
  date_range env start_date (end_or_today env end_date) freq = Ok dates ->
  let run := get_index_components_history env index start_date end_date freq st in
  fs_files (fst run) = fs_files st /\
  fs_dirs (fst run) = fs_dirs st /\
  exists a p,
    api_gets (trace (fst run)) = (api_gets (trace st) + a)%nat /\
    page_reads (trace (fst run)) = (page_reads (trace st) + p)%nat /\
    (p <= a <= length dates)%nat /\
    (forall hc, snd run = Ok hc -> a = length dates /\ p = length dates).
Proof.
  intros Hdates run. unfold run.
  rewrite (get_index_components_history_run env index start_date end_date
             freq dates st Hdates).
  apply (history_loop_frame env index dates []).
  apply surjective_pairing.
Qed.

Lemma history_requests_per_date_witness :
  exists a p,
    api_gets (trace (fst (get_index_components_history sample_env "SPX"
                            (Some 1420070400) (Some 1430000000) "QS"
                            empty_state))) =
      (api_gets (trace empty_state) + a)%nat /\
    page_reads (trace (fst (get_index_components_history sample_env "SPX"
                              (Some 1420070400) (Some 1430000000) "QS"
                              empty_state))) =
      (page_reads (trace empty_state) + p)%nat /\
    (p <= a <= 2)%nat.
Proof.
  destruct (history_requests_per_date sample_env "SPX" (Some 1420070400)
              (Some 1430000000) "QS" [1420070400; 1427846400] empty_state)
    as (_ & _ & a & p & Ha & Hp & Hle & _); [reflexivity |].
  exists a, p. repeat split; try assumption; apply Hle.
Defined.

(** ** The keys of a history *)

Lemma dict_set_keys {V} k (v : V) d :
  map fst (dict_set k v d) =
  if existsb (String.eqb k) (map fst d) then map fst d
  else (map fst d ++ [k])%list.
Proof.
  induction d as [| [k' v'] d IH]; simpl; [reflexivity |].
  rewrite (String.eqb_sym k k').
  destruct (String.eqb k' k); simpl; [reflexivity |].
  rewrite IH. destruct (existsb _ _); reflexivity.
Qed.

Lemma existsb_eqb_In k (l : list string) :
  existsb (String.eqb k) l = true <-> In k l.
Proof.
  rewrite existsb_exists. split.
  - intros (x & Hx & E). apply String.eqb_eq in E. subst. exact Hx.
  - intros H. exists k. split; [exact H | apply String.eqb_refl].
Qed.

Lemma dict_set_In {V} k (v : V) d k' :
  In k' (map fst (dict_set k v d)) <-> k' = k \/ In k' (map fst d).
Proof.
  rewrite dict_set_keys.
  destruct (existsb (String.eqb k) (map fst d)) eqn:E.
  - apply existsb_eqb_In in E. split; [auto |]. intros [-> |]; assumption.
  - rewrite in_app_iff. simpl. split; [intros [H | [<- | []]] | intros [-> | H]]; auto.
Qed.

Lemma dict_set_NoDup {V} k (v : V) d :
  List.NoDup (map fst d) -> List.NoDup (map fst (dict_set k v d)).
Proof.
  intros H. rewrite dict_set_keys.
  destruct (existsb (String.eqb k) (map fst d)) eqn:E; [exact H |].
  apply List.NoDup_app; [exact H | repeat constructor; simpl; tauto |].
  intros x Hx [<- | []].
  apply existsb_eqb_In in Hx. congruence.
Qed.

Lemma history_loop_keys env index dates acc st st' hc :
  for_each (record_components env index) dates acc st = (st', Ok hc) ->
  List.NoDup (map fst acc) ->
  List.NoDup (map fst hc) /\
  forall k, In k (map fst hc) <->
            In k (map fst acc) \/ In k (map timestamp_str dates).
Proof.
  revert acc st. induction dates as [| d dates IH]; intros acc st; simpl.
  - unfold ret. intros [= _ <-] H. split; [exact H | tauto].
  - unfold record_components, bind, ret.
    destruct (get_index_components_at env index (Some d) st)
      as [st1 [df | e]]; [| discriminate].
    intros Hrest Hacc.
    apply IH in Hrest as [Hnd Hin]; [| apply dict_set_NoDup; exact Hacc].
    split; [exact Hnd |].
    intros k. rewrite Hin, dict_set_In. intuition.
Qed.

(** X5. Whatever the sample dates, the mapping a history returns has
    each key once, its keys are exactly the renderings of the dates
    visited, and it has no more entries than there were dates. *)
Theorem history_keys_are_the_dates
    env index start_date end_date freq dates st st' hc :
  date_range env start_date (end_or_today env end_date) freq = Ok dates ->
  get_index_components_history env index start_date end_date freq st =
    (st', Ok hc) ->
  List.NoDup (map fst hc) /\
  (forall k, In k (map fst hc) <-> In k (map timestamp_str dates)) /\
  (length hc <= length dates)%nat.
Proof.
  intros Hdates Hrun.
  rewrite (get_index_components_history_run env index start_date end_date
             freq dates st Hdates) in Hrun.
  apply history_loop_keys in Hrun as [Hnd Hin]; [| constructor].
  assert (Hkeys : forall k, In k (map fst hc) <-> In k (map timestamp_str dates))
    by (intros k; rewrite Hin; simpl; tauto).
  split; [exact Hnd |]. split; [exact Hkeys |].
  rewrite <- (length_map fst hc), <- (length_map timestamp_str dates).
  apply NoDup_incl_length; [exact Hnd |].
  intros k Hk. apply Hkeys. exact Hk.
Qed.

Lemma history_keys_are_the_dates_witness :
  List.NoDup (map fst repeated_history) /\
  (forall k, In k (map fst repeated_history) <->
             In k (map timestamp_str repeated_dates)) /\
  (length repeated_history <= length repeated_dates)%nat.
Proof.
  apply (history_keys_are_the_dates repeating_env "SPX" None None "D"
           repeated_dates empty_state
           (fst (get_index_components_history repeating_env "SPX" None None
                   "D" empty_state))).
  - reflexivity.
  - vm_compute. reflexivity.
Defined.

(** ** Histories with nothing to visit *)

(** X6. When the date range cannot be generated the history raises what
    [date_range] raised, and when it is empty the history is the empty
    mapping; in both cases nothing is printed or requested, and the index
    is not even looked at. An index that is not configured raises
    [KeyError] at the first date, before any request. *)
Theorem history_without_visits env index start_date end_date freq st :
  (forall e,
     date_range env start_date (end_or_today env end_date) freq = Raise e ->
     get_index_components_history env index start_date end_date freq st =
       (st, Raise e)) /\
  (date_range env start_date (end_or_today env end_date) freq = Ok [] ->
   get_index_components_history env index start_date end_date freq st =
     (st, Ok [])) /\
  (forall date dates,
     date_range env start_date (end_or_today env end_date) freq =
       Ok (date :: dates) ->
     assoc index wikipedia_pages = None ->
     get_index_components_history env index start_date end_date freq st =
       (st, Raise (KeyError index))).
Proof.
  repeat split.
  - intros e H. unfold get_index_components_history, bind, lift.
    fold (end_or_today env end_date). rewrite H. reflexivity.
  - intros H.
    rewrite (get_index_components_history_run _ _ _ _ _ _ _ H). reflexivity.
  - intros date dates H Hpage.
    rewrite (get_index_components_history_run _ _ _ _ _ _ _ H). simpl.
    unfold record_components, bind.
    rewrite (get_index_components_at_unknown env index (Some date) st Hpage).
    reflexivity.
Qed.

Lemma history_without_visits_witness :
  get_index_components_history sample_env "SP500" (Some 1420070400) None
    "QS" empty_state = (empty_state, Raise (KeyError "SP500")) /\
  get_index_components_history sample_env "SP500" (Some 1420070400)
    (Some 0) "QS" empty_state = (empty_state, Ok []).
Proof.
  split.
  - destruct (history_without_visits sample_env "SP500" (Some 1420070400)
                None "QS" empty_state) as (_ & _ & H).
    apply (H 1420070400 [1427846400; 1435708800]); reflexivity.
  - destruct (history_without_visits sample_env "SP500" (Some 1420070400)
                (Some 0) "QS" empty_state) as (_ & H & _).
    apply H. reflexivity.
Defined.

(** ** Extraction, whatever the cells *)

Lemma map_filter_comm {A B} (f : A -> B) (p : B -> bool) (l : list A) :
  map f (List.filter (fun x => p (f x)) l) = List.filter p (map f l).
Proof.
  induction l as [| x l IH]; simpl; [reflexivity |].
  destruct (p (f x)); simpl; congruence.
Qed.

Lemma sort_index_outcome df :
  let present := List.filter (fun v => negb (isna v)) (df_index df) in
  (comparable present = true ->
   exists r, sort_index df = Ok r /\
             df_columns r = df_columns df /\
             df_index_name r = df_index_name df /\
             Permutation (df_rows r) (df_rows df)) /\
  (comparable present = false -> sort_index df = Raise TypeError).
Proof.
  intros present. unfold sort_index.
  assert (E : map fst (List.filter (fun r => negb (isna (fst r))) (df_rows df))
              = present)
    by (unfold present, df_index;
        apply (map_filter_comm fst (fun v => negb (isna v)))).
  rewrite E. split; intros H; rewrite H; [| reflexivity].
  eexists. split; [reflexivity |]. simpl.
  split; [reflexivity |]. split; [reflexivity |].
  rewrite insertion_sort_perm. apply filter_partition_perm.
Qed.

(** X7. Once a table is matched, extraction can fail in one way only:
    with [TypeError], exactly when the symbol column holds both text and
    numbers. Otherwise, whatever the cells, it returns the columns
    without the matched one and every re-keyed row exactly once. *)
Theorem matched_table_fails_only_on_mixed_symbols pre t post col :
  Forall unrecognised pre ->
  matched_column t = Some col ->
  let present := List.filter (fun v => negb (isna v)) (column col t) in
  (comparable present = true ->
   exists i r,
     column_position col (df_columns t) = Some i /\
     components_of_tables (pre ++ t :: post) = Ok r /\
     df_columns r = drop_nth i (df_columns t) /\
     df_index_name r = Some "Symbol" /\
     Permutation (df_rows r) (map (rekey i) (df_rows t))) /\
  (comparable present = false ->
   components_of_tables (pre ++ t :: post) = Raise TypeError).
Proof.
  intros Hpre Hcol present.
  destruct (matched_column_position t col Hcol) as (_ & i & Hi).
  unfold components_of_tables.
  rewrite (scan_tables_first_match pre t post col i None Hpre Hcol Hi).
  set (df := set_index_name "Symbol" _).
  destruct (sort_index_outcome df) as [Hok Hfail].
  assert (E : List.filter (fun v => negb (isna v)) (df_index df) = present).
  { unfold present, column, df_index, df. rewrite Hi. simpl.
    rewrite map_map. reflexivity. }
  rewrite E in Hok, Hfail. split.
  - intros H. destruct (Hok H) as (r & Hr & Hc & Hn & Hp).
    exists i, r. repeat split; assumption.
  - exact Hfail.
Qed.

Lemma matched_table_fails_only_on_mixed_symbols_witness :
  components_of_tables ([legend_table] ++ mixed_table :: []) = Raise TypeError /\
  exists i r,
    column_position "Ticker symbol" (df_columns duplicate_table) = Some i /\
    components_of_tables ([] ++ duplicate_table :: [mixed_table]) = Ok r /\
    df_columns r = drop_nth i (df_columns duplicate_table) /\
    df_index_name r = Some "Symbol" /\
    Permutation (df_rows r) (map (rekey i) (df_rows duplicate_table)).
Proof.
  split.
  - apply (matched_table_fails_only_on_mixed_symbols
             [legend_table] mixed_table [] "Symbol");
      [repeat constructor | reflexivity | reflexivity].
  - apply (matched_table_fails_only_on_mixed_symbols
             [] duplicate_table [mixed_table] "Ticker symbol");
      [constructor | reflexivity | reflexivity].
Defined.

Lemma drop_nth_keeps name x cols i :
  column_position name cols = Some i ->
  x <> name -> In x cols -> In x (drop_nth i cols).
Proof.
  revert i. induction cols as [| c cols IH]; intros i; simpl; [discriminate |].
  destruct (String.eqb_spec name c) as [-> | Hne].
  - intros [= <-] Hx [-> | H]; [congruence | exact H].
  - destruct (column_position name cols) as [j |]; [| discriminate].
    simpl. intros [= <-] Hx [-> | H]; simpl; [left; reflexivity |].
    right. apply IH; auto.
Qed.

(** X8. In a table that has both a "Symbol" and a "Ticker symbol"
    column, "Symbol" is the one the rows are re-keyed on: the index holds
    its cells, and "Ticker symbol" stays among the columns. *)
Theorem symbol_takes_precedence pre t post r :
  Forall unrecognised pre ->
  has_column "Symbol" t = true ->
  has_column "Ticker symbol" t = true ->
  components_of_tables (pre ++ t :: post) = Ok r ->
  In "Ticker symbol" (df_columns r) /\
  Permutation (df_index r) (column "Symbol" t).
Proof.
  intros Hpre Hs Ht Hrun.
  assert (Hcol : matched_column t = Some "Symbol")
    by (unfold matched_column; rewrite Hs; reflexivity).
  destruct (matched_column_position t "Symbol" Hcol) as (_ & i & Hi).
  unfold components_of_tables in Hrun.
  rewrite (scan_tables_first_match pre t post "Symbol" i None Hpre Hcol Hi)
    in Hrun.
  set (df := set_index_name "Symbol" _) in Hrun.
  destruct (sort_index_outcome df) as [Hok Hfail].
  destruct (comparable _) eqn:E.
  - destruct (Hok eq_refl) as (r' & Hr' & Hc & _ & Hp).
    rewrite Hrun in Hr'. injection Hr' as <-.
    split.
    + rewrite Hc. unfold df. cbn [set_index_name df_columns].
      apply (drop_nth_keeps "Symbol"); [exact Hi | discriminate |].
      apply existsb_eqb_In. exact Ht.
    + unfold df_index, column. rewrite Hi, Hp. unfold df.
      cbn [set_index_name df_rows]. rewrite map_map. reflexivity.
  - rewrite (Hfail eq_refl) in Hrun. discriminate.
Qed.

Lemma symbol_takes_precedence_witness :
  In "Ticker symbol" (df_columns both_headers_result) /\
  Permutation (df_index both_headers_result)
    (column "Symbol" both_headers_table).
Proof.
  apply (symbol_takes_precedence [legend_table] both_headers_table []);
    [repeat constructor | reflexivity | reflexivity | reflexivity].
Defined.

(** ** Numeric symbol columns *)

Lemma numeric_rows_total (rows : list (Value * list Value)) :
  Forall (fun r => is_num (fst r) = true) rows ->
  forall x y, In x rows -> In y rows ->
    row_leb x y = true \/ row_leb y x = true.
Proof.
  intros H x y Hx Hy. rewrite List.Forall_forall in H.
  pose proof (H x Hx) as Nx. pose proof (H y Hy) as Ny.
  unfold row_leb. destruct (fst x), (fst y); try discriminate.
  simpl. rewrite !Z.leb_le. lia.
Qed.

Lemma numeric_rows_numbers (rows : list (Value * list Value)) :
  Forall (fun r => is_num (fst r) = true) rows ->
  Sorted (le_of row_leb) rows ->
  exists numbers, map fst rows = map VNum numbers /\ Sorted Z.le numbers.
Proof.
  induction rows as [| [k cells] rows IH]; intros Hs Hsorted.
  - exists []. split; [reflexivity | constructor].
  - inversion Hs as [| ? ? Hk Hs']; subst.
    inversion Hsorted as [| ? ? Hsorted' Hhd]; subst.
    destruct (IH Hs' Hsorted') as (numbers & Hmap & Hnum).
    destruct k as [| n |]; try discriminate.
    exists (n :: numbers). split; [simpl; congruence |].
    constructor; [exact Hnum |].
    destruct rows as [| [k' cells'] rows]; destruct numbers as [| n' numbers];
      try discriminate; constructor.
    injection Hmap as -> _. inversion Hhd as [| ? ? Hle]; subst.
    apply Z.leb_le. exact Hle.
Qed.

Lemma filter_all {A} (f : A -> bool) (l : list A) :
  (forall x, In x l -> f x = true) -> List.filter f l = l.
Proof.
  induction l as [| x l IH]; simpl; intros H; [reflexivity |].
  rewrite (H x) by (left; reflexivity). f_equal.
  apply IH. intros; apply H; right; assumption.
Qed.

(** X9. A symbol column whose cells are all numbers is sorted by value,
    not as text: the index comes back in ascending numeric order, so 9
    stands before 10. *)
Theorem numeric_symbols_sorted_by_value pre t post col :
  Forall unrecognised pre ->
  matched_column t = Some col ->
  Forall (fun v => is_num v = true) (column col t) ->
  exists r numbers,
    components_of_tables (pre ++ t :: post) = Ok r /\
    df_index r = map VNum numbers /\
    StronglySorted Z.le numbers /\
    Permutation (df_index r) (column col t).
Proof.
  intros Hpre Hcol Hnum.
  destruct (matched_column_position t col Hcol) as (_ & i & Hi).
  unfold components_of_tables.
  rewrite (scan_tables_first_match pre t post col i None Hpre Hcol Hi).
  unfold column in *. rewrite Hi in *.
  set (rows := map (rekey i) (df_rows t)).
  assert (Hrows : Forall (fun r => is_num (fst r) = true) rows).
  { unfold rows. rewrite Forall_map. rewrite Forall_map in Hnum. exact Hnum. }
  unfold sort_index, set_index_name. cbn [df_rows df_columns df_index_name].
  fold rows.
  assert (Hpresent : List.filter (fun r => negb (isna (fst r))) rows = rows).
  { apply filter_all. intros r Hr. rewrite List.Forall_forall in Hrows.
    specialize (Hrows r Hr). destruct (fst r); try discriminate; reflexivity. }
  assert (Hmissing : List.filter (fun r => isna (fst r)) rows = []).
  { apply filter_none. intros r Hr. rewrite List.Forall_forall in Hrows.
    specialize (Hrows r Hr). destruct (fst r); try discriminate; reflexivity. }
  rewrite Hpresent, Hmissing, app_nil_r.
  assert (Hcmp : comparable (map fst rows) = true).
  { unfold comparable. apply orb_true_iff. right.
    apply forallb_forall. intros v Hv. apply in_map_iff in Hv as (r & <- & Hr).
    rewrite List.Forall_forall in Hrows. auto. }
  rewrite Hcmp.
  assert (Hsorted_num : Forall (fun r => is_num (fst r) = true)
                          (insertion_sort row_leb rows)).
  { apply List.Forall_forall. intros r Hr.
    apply (proj1 (insertion_sort_In row_leb r rows)) in Hr.
    rewrite List.Forall_forall in Hrows. auto. }
  destruct (numeric_rows_numbers _ Hsorted_num) as (numbers & Hmap & Hsorted).
  { apply insertion_sort_Sorted. apply numeric_rows_total. exact Hrows. }
  eexists _, numbers. split; [reflexivity |].
  unfold df_index. cbn [df_rows].
  split; [exact Hmap |]. split.
  - apply Sorted_StronglySorted; [| exact Hsorted].
    intros a b c. apply Z.le_trans.
  - rewrite insertion_sort_perm. unfold rows. rewrite map_map. reflexivity.
Qed.

Lemma numeric_symbols_sorted_by_value_witness :
  exists r numbers,
    components_of_tables ([legend_table] ++ numeric_table :: []) = Ok r /\
    df_index r = map VNum numbers /\
    StronglySorted Z.le numbers /\
    Permutation (df_index r) (column "Symbol" numeric_table).
Proof.
  apply (numeric_symbols_sorted_by_value [legend_table] numeric_table []
           "Symbol"); [repeat constructor | reflexivity | repeat constructor].
Defined.

(** The order is numeric: 9, 10, 700. *)
Example numeric_scenario :
  option_map df_index
    (match components_of_tables [numeric_table] with
     | Ok r => Some r
     | Raise _ => None
     end) = Some [VNum 9; VNum 10; VNum 700].
Proof. reflexivity. Qed.

(** ** Pairs that cannot be written *)

(** The no-break space separates words like any white space, and a key
    made of it has no word. *)
Example split_no_break_space :
  split ("2015-01-01" ++ no_break_space ++ "00:00:00") =
    ["2015-01-01"; "00:00:00"] /\
  split (no_break_space ++ " ") = [].
Proof. split; reflexivity. Qed.

(** X10. A pair of strings that cannot be written aborts the run where
    it stands: a key in which [split] finds no word (the empty key, a key
    of white space only) raises [IndexError], and a file that cannot be
    opened raises the error of [open], [FileNotFoundError] when the
    directory is missing. The state is as the earlier pairs left it and
    the later pairs are not written. *)
Theorem unwritable_pair_aborts index pre date symbols post st st1 :
  components_to_separate_csv pre index st = (st1, Ok tt) ->
  (split date = [] ->
   components_to_separate_csv (pre ++ (date, map VStr symbols) :: post)
     index st = (st1, Raise IndexError)) /\
  (forall formatted_date rest e,
     split date = formatted_date :: rest ->
     open_error st1 (csv_path index formatted_date) = Some e ->
     components_to_separate_csv (pre ++ (date, map VStr symbols) :: post)
       index st = (st1, Raise e)).
Proof.
  intros Hpre. split.
  - intros Hsplit.
    rewrite (components_to_separate_csv_step pre _ post index st st1 Hpre).
    rewrite write_components_outcome, forallb_is_str_map, Hsplit.
    reflexivity.
  - intros formatted_date rest e Hsplit Hopen.
    rewrite (components_to_separate_csv_step pre _ post index st st1 Hpre).
    rewrite write_components_outcome, forallb_is_str_map, Hsplit, Hopen.
    reflexivity.
Qed.

Lemma unwritable_pair_aborts_witness :
  components_to_separate_csv
    ([] ++ (no_break_space, map VStr ["AAPL"]) ::
           [("2015-01-01 00:00:00", [VStr "MSFT"])])
    "SPX" sample_fs = (sample_fs, Raise IndexError) /\
  components_to_separate_csv
    ([] ++ ("2015-01-01 00:00:00", map VStr ["AAPL"]) :: [])
    "S400" sample_fs =
  (sample_fs, Raise (FileNotFoundError "S400/S400_2015-01-01.csv")) /\
  components_to_separate_csv
    ([] ++ ("2015-01-01 00:00:00", map VStr ["AAPL"]) :: [])
    "SPX" denied_fs =
  (denied_fs, Raise (PermissionError "SPX/SPX_2015-01-01.csv")).
Proof.
  split; [| split].
  - apply (unwritable_pair_aborts "SPX" [] no_break_space ["AAPL"]
             [("2015-01-01 00:00:00", [VStr "MSFT"])] sample_fs sample_fs);
      reflexivity.
  - apply (proj2 (unwritable_pair_aborts "S400" [] "2015-01-01 00:00:00"
                    ["AAPL"] [] sample_fs sample_fs eq_refl)
             "2015-01-01" ["00:00:00"]); reflexivity.
  - apply (proj2 (unwritable_pair_aborts "SPX" [] "2015-01-01 00:00:00"
                    ["AAPL"] [] denied_fs denied_fs eq_refl)
             "2015-01-01" ["00:00:00"]); reflexivity.
Defined.

(** ** The files a run leaves *)

(** Whether a file can be opened depends on the directories and the
    refusals, not on the files written so far. *)
Lemma open_error_none st st2 path :
  fs_dirs st2 = fs_dirs st -> fs_denied st2 = fs_denied st ->
  open_error st path = None -> open_error st2 path = None.
Proof.
  intros Hdirs Hdenied. unfold open_error, dir_exists.
  rewrite Hdirs, Hdenied.
  destruct (has_nul path); [discriminate |].
  destruct (fs_denied st !! path); [discriminate |].
  destruct (bool_decide (path ∈ fs_dirs st)); [discriminate |].
  destruct (match dirname path with
            | Some EmptyString | None => true
            | Some d => bool_decide (d ∈ fs_dirs st)
            end); [reflexivity |].
  destruct (existsb (is_file st) (ancestors path)); discriminate.
Qed.

Lemma csv_run_files components index st st' st2 :
  components_to_separate_csv components index st = (st', Ok tt) ->
  fs_dirs st2 = fs_dirs st ->
  fs_denied st2 = fs_denied st ->
  exists st2',
    components_to_separate_csv components index st2 = (st2', Ok tt) /\
    fs_dirs st2' = fs_dirs st2 /\
    fs_denied st2' = fs_denied st2 /\
    fs_files st2' = apply_writes (csv_writes index components) (fs_files st2).
Proof.
  revert st st2.
  induction components as [| [date l] rest IH];
    intros st st2 Hrun Hdirs Hdenied.
  - exists st2. repeat split.
  - pose proof (components_to_separate_csv_step [] (date, l) rest index st st
                  eq_refl) as Hstep.
    pose proof (components_to_separate_csv_step [] (date, l) rest index st2 st2
                  eq_refl) as Hstep2.
    cbn [app] in Hstep, Hstep2. rewrite Hstep in Hrun. rewrite Hstep2.
    clear Hstep Hstep2.
    rewrite write_components_outcome in Hrun. rewrite write_components_outcome.
    unfold csv_writes. cbn [flat_map]. unfold snapshot_of. cbn [fst snd].
    destruct (forallb is_str l).
    + destruct (split date) as [| formatted_date words]; [discriminate |].
      destruct (open_error st (csv_path index formatted_date)) eqn:Hopen;
        [discriminate |].
      rewrite (open_error_none st st2 _ Hdirs Hdenied Hopen).
      eapply (IH _ (set_files
                      (<[csv_path index formatted_date :=
                           String.concat "," (texts l)]> (fs_files st2)) st2))
        in Hrun as (st2' & Hrun2 & Hd & Hden & Hf);
        [| exact Hdirs | exact Hdenied].
      exists st2'. repeat split; assumption.
    + eapply (IH _ (log [skip_warning date] st2))
        in Hrun as (st2' & Hrun2 & Hd & Hden & Hf);
        [| exact Hdirs | exact Hdenied].
      exists st2'. repeat split; assumption.
Qed.

Lemma assoc_In {V} k (v : V) l : assoc k l = Some v -> In (k, v) l.
Proof.
  induction l as [| [k' v'] l IH]; simpl; [discriminate |].
  destruct (String.eqb_spec k' k) as [-> | _]; [intros [= ->]; auto | auto].
Qed.

Lemma csv_writes_paths index components p c :
  In (p, c) (csv_writes index components) ->
  exists formatted_date, p = csv_path index formatted_date.
Proof.
  unfold csv_writes. rewrite in_flat_map. intros ([date l] & _ & H).
  unfold snapshot_of in H. cbn [fst snd] in H.
  destruct (forallb is_str l); [| destruct H].
  destruct (split date) as [| d words]; [destruct H |].
  destruct H as [[= <- _] | []]. eauto.
Qed.

(** X11. After a run that ends well the directories are unchanged, and
    every file holds what the last pair written to its path put there:
    the comma-joined strings of that pair, the path being
    [{index}/{index}_{first word of the key}.csv]. A file no pair wrote
    to, in particular any file not so named, is as it was; no file is
    removed. *)
Theorem snapshot_files_after_run components index st st' :
  components_to_separate_csv components index st = (st', Ok tt) ->
  fs_dirs st' = fs_dirs st /\
  (forall p,
     fs_files st' !! p =
     match assoc p (rev (csv_writes index components)) with
     | Some content => Some content
     | None => fs_files st !! p
     end) /\
  (forall p,
     (forall formatted_date, p <> csv_path index formatted_date) ->
     fs_files st' !! p = fs_files st !! p) /\
  (forall p, is_Some (fs_files st !! p) -> is_Some (fs_files st' !! p)).
Proof.
  intros Hrun.
  destruct (csv_run_files components index st st' st Hrun eq_refl eq_refl)
    as (st2 & Hrun2 & Hd & _ & Hf).
  rewrite Hrun in Hrun2. injection Hrun2 as <-.
  assert (Hlookup : forall p,
            fs_files st' !! p =
            match assoc p (rev (csv_writes index components)) with
            | Some content => Some content
            | None => fs_files st !! p
            end).
  { intros p. rewrite Hf. unfold apply_writes. apply fold_insert_lookup. }
  split; [exact Hd |]. split; [exact Hlookup |]. split.
  - intros p Hp. rewrite Hlookup.
    destruct (assoc p (rev (csv_writes index components))) as [c |] eqn:E;
      [| reflexivity].
    apply assoc_In, in_rev, csv_writes_paths in E as [d ->].
    exfalso. apply (Hp d). reflexivity.
  - intros p Hp. rewrite Hlookup.
    destruct (assoc p (rev (csv_writes index components))); [eauto | exact Hp].
Qed.

Lemma snapshot_files_after_run_witness :
  fs_files (fst (components_to_separate_csv hourly_components "SPX" sample_fs))
    !! "SPX/SPX_2015-01-01.csv" = Some "AAPL,MSFT".
Proof.
  destruct (snapshot_files_after_run hourly_components "SPX" sample_fs
              (fst (components_to_separate_csv hourly_components "SPX"
                      sample_fs)))
    as (_ & Hlookup & _); [vm_compute; reflexivity |].
  rewrite Hlookup. reflexivity.
Defined.

(** X12. Writing is idempotent on the files: a run that ended well, run
    again on the same mapping, ends well again and leaves every file and
    directory as the first run left it. *)
Theorem snapshot_rerun_changes_nothing components index st st1 :
  components_to_separate_csv components index st = (st1, Ok tt) ->
  exists st2,
    components_to_separate_csv components index st1 = (st2, Ok tt) /\
    fs_files st2 = fs_files st1 /\
    fs_dirs st2 = fs_dirs st1.
Proof.
  intros Hrun.
  destruct (csv_run_files components index st st1 st Hrun eq_refl eq_refl)
    as (st1' & Hrun1 & Hd1 & Hden1 & Hf1).
  rewrite Hrun in Hrun1. injection Hrun1 as <-.
  destruct (csv_run_files components index st st1 st1 Hrun Hd1 Hden1)
    as (st2 & Hrun2 & Hd2 & _ & Hf2).
  exists st2. split; [exact Hrun2 |]. split; [| exact Hd2].
  rewrite Hf2, Hf1. apply map_eq. intros p.
  unfold apply_writes. rewrite !fold_insert_lookup.
  destruct (assoc p (rev (csv_writes index components))); reflexivity.
Qed.

Lemma snapshot_rerun_changes_nothing_witness :
  exists st2,
    components_to_separate_csv hourly_components "SPX"
      (fst (components_to_separate_csv hourly_components "SPX" sample_fs)) =
      (st2, Ok tt) /\
    fs_files st2 =
      fs_files (fst (components_to_separate_csv hourly_components "SPX"
                       sample_fs)) /\
    fs_dirs st2 =
      fs_dirs (fst (components_to_separate_csv hourly_components "SPX"
                      sample_fs)).
Proof.
  apply (snapshot_rerun_changes_nothing hourly_components "SPX" sample_fs).
  vm_compute. reflexivity.
Defined.

(** ** From a history to its files *)





















(** The first quarter's file is named after its date. *)
Example quarter_file_name :
  csv_path "SPX" (date_str 1420070400) = "SPX/SPX_2015-01-01.csv".
Proof. reflexivity. Qed.

(** ** The other tables of the document *)

(** X14. Only the first recognised table counts: the unrecognised
    tables before it and all the tables after it, recognised or not, have
    no influence on what is returned or raised. *)
Theorem other_tables_do_not_matter pre t post :
  Forall unrecognised pre ->
  (has_column "Symbol" t || has_column "Ticker symbol" t) = true ->
  components_of_tables (pre ++ t :: post) = components_of_tables [t].
Proof.
  intros Hpre Hm.
  assert (Hcol : exists col, matched_column t = Some col).
  { unfold matched_column. destruct (has_column "Symbol" t); [eauto |].
    simpl in Hm. rewrite Hm. eauto. }
  destruct Hcol as [col Hcol].
  destruct (matched_column_position t col Hcol) as (_ & i & Hi).
  unfold components_of_tables.
  rewrite (scan_tables_first_match pre t post col i None Hpre Hcol Hi).
  change [t] with ([] ++ [t])%list.
  rewrite (scan_tables_first_match [] t [] col i None (List.Forall_nil _)
             Hcol Hi).
  reflexivity.
Qed.

Lemma other_tables_do_not_matter_witness :
  components_of_tables ([legend_table] ++ spx_table :: [duplicate_table]) =
  components_of_tables [spx_table].
Proof.
  apply (other_tables_do_not_matter [legend_table] spx_table [duplicate_table]);
    [repeat constructor | reflexivity].
Defined.

(** ** Failures between the lookup and the page *)

Lemma fetch_events_found page fields rest ts revid :
  assoc "timestamp" fields = Some ts ->
  assoc "revid" fields = Some revid ->
  fetch_events page (Ok (JArr (JObj fields :: rest))) =
  [ Stdout [PText "Got results from "; PJson ts];
    ReadHtml (page_url page revid) ].
Proof.
  intros Hts Hrevid. unfold fetch_events. simpl. rewrite Hts, Hrevid.
  reflexivity.
Qed.

(** X15. In [get_index_components_at], what the lookup raises is raised
    and no page is read; an empty revision list raises [IndexError], a
    revision without "timestamp" or without "revid" raises [KeyError],
    again before any page is read. With both present the page of the
    first revision is the one read, the other revisions are not looked
    at, and what [read_html] raises or the tables yield is the outcome. *)
Theorem components_at_failures env index page when st :
  assoc index wikipedia_pages = Some page ->
  let lookup :=
    snd (get_revisions_metadata (session env) page (Some when) None "older" 1
           [] st) in
  let run := get_index_components_at env index (Some when) st in
  let no_page_read := page_reads (trace (fst run)) = page_reads (trace st) in
  (forall e, lookup = Raise e -> snd run = Raise e /\ no_page_read) /\
  (lookup = Ok (JArr []) -> snd run = Raise IndexError /\ no_page_read) /\
  (forall fields rest,
     lookup = Ok (JArr (JObj fields :: rest)) ->
     assoc "timestamp" fields = None ->
     snd run = Raise (KeyError "timestamp") /\ no_page_read) /\
  (forall fields rest ts,
     lookup = Ok (JArr (JObj fields :: rest)) ->
     assoc "timestamp" fields = Some ts ->
     assoc "revid" fields = None ->
     snd run = Raise (KeyError "revid") /\ no_page_read) /\
  (forall fields rest ts revid,
     lookup = Ok (JArr (JObj fields :: rest)) ->
     assoc "timestamp" fields = Some ts ->
     assoc "revid" fields = Some revid ->
     last (trace (fst run)) = Some (ReadHtml (page_url page revid)) /\
     snd run = match read_html env (page_url page revid) with
               | Raise e => Raise e
               | Ok table => components_of_tables table
               end).
Proof.
  intros Hpage lookup run no_page_read.
  unfold no_page_read, run, lookup.
  rewrite get_revisions_metadata_run.
  rewrite (get_index_components_at_run env index page (Some when) st Hpage).
  cbv zeta. cbn [fst snd when_or_today]. rewrite trace_log.
  set (qp := query_params page (Some when) None "older" 1 []).
  destruct (lookup_events_requests qp (session env qp)) as [_ Hreads].
  assert (Hnone : forall revisions,
            page_reads (fetch_events page revisions) = 0%nat ->
            page_reads (trace st ++ lookup_events qp (session env qp) ++
                          fetch_events page revisions)%list =
            page_reads (trace st)).
  { intros revisions H. unfold page_reads in *.
    rewrite !List.filter_app, !length_app, Hreads, H. lia. }
  split; [| split; [| split; [| split]]].
  - intros e H.
    split; [rewrite H; reflexivity | apply Hnone; rewrite H; reflexivity].
  - intros H.
    split; [rewrite H; reflexivity | apply Hnone; rewrite H; reflexivity].
  - intros fields rest H Hts. split.
    + rewrite H. unfold fetch_result. simpl. rewrite Hts. reflexivity.
    + apply Hnone. rewrite H. unfold fetch_events. simpl. rewrite Hts.
      reflexivity.
  - intros fields rest ts H Hts Hrev. split.
    + rewrite H. unfold fetch_result. simpl. rewrite Hts, Hrev. reflexivity.
    + apply Hnone. rewrite H. unfold fetch_events. simpl. rewrite Hts, Hrev.
      reflexivity.
  - intros fields rest ts rv H Hts Hrev. split.
    + rewrite H, (fetch_events_found page fields rest ts rv Hts Hrev).
      rewrite !last_app. reflexivity.
    + rewrite H. unfold fetch_result. simpl. rewrite Hts, Hrev. reflexivity.
Qed.

Lemma components_at_failures_witness :
  snd (get_index_components_at sample_env "SPX" (Some 1435708800)
         empty_state) = Raise ValueError /\
  last (trace (fst (get_index_components_at sample_env "SPX" (Some 1435708800)
                      empty_state))) =
  Some (ReadHtml (page_url spx_page (JNum 669294121))).
Proof.
  destruct (components_at_failures sample_env "SPX" spx_page 1435708800
              empty_state eq_refl) as (_ & _ & _ & _ & H).
  destruct (H [ ("revid", JNum 669294121); ("parentid", JNum 651482045);
                ("user", JStr "C"); ("timestamp", JNum 1435622400);
                ("comment", JStr "index change") ] []
              (JNum 1435622400) (JNum 669294121))
    as [Hlast Hrun]; [vm_compute; reflexivity | reflexivity | reflexivity |].
  split; [rewrite Hrun; reflexivity | exact Hlast].
Defined.
